(** * Real-Time-Data-Checker: session resolution, snapshot decoding and
      price reconciliation

    A shallow embedding of the three Python programs of the repository

    - [TAQ_Checker_ShenzhenReal.py]  (class [SZSEOfficialDataFetcher]),
    - [Shenzhen_Real_Time_Final.py]  (class [SZSEDataFetcher]),
    - [Real_Time_ShenZhen2.py]       (class [SZSEDataFetcher], second copy),

    together with the parts of the Python runtime they call
    ([str] methods, [int()], [float()], [datetime.strptime], JSON values).

    Conventions.
    - Text is a [string]: a sequence of 8-bit characters.  Characters above
      127 are ordinary characters (neither white space nor digits), except
      in what is read at a prompt.
    - A Python [float] is an IEEE-754 binary64 number, represented by
      [spec_float] with precision 53 and maximal exponent 1024; all
      arithmetic rounds to nearest, ties to even.
    - A computation that may raise is a value of [py A]; [None] results of
      the program are [option]s.
    - The wall clock and the network are explicit parameters. *)

From Stdlib Require Import ZArith List String Ascii Bool Lia SpecFloat.
Import ListNotations.

Local Open Scope string_scope.
Local Open Scope Z_scope.

(* ================================================================== *)
(** * Python runtime                                                    *)
(* ================================================================== *)

Module Py.

(** ** Exceptions *)

Inductive exn : Type :=
| ValueError
| TypeError
| IndexError
| OverflowError
| AttributeError.

Inductive py (A : Type) : Type :=
| Ok (a : A)
| Raise (e : exn).

Arguments Ok {A} a.
Arguments Raise {A} e.

Definition bind {A B : Type} (m : py A) (k : A -> py B) : py B :=
  match m with
  | Ok a => k a
  | Raise e => Raise e
  end.

Notation "x <- m ;; k" := (bind m (fun x => k))
  (at level 61, m at next level, right associativity).

(** [try: m  except ValueError: h] *)
Definition except_ValueError {A : Type} (m : py A) (h : py A) : py A :=
  match m with
  | Raise ValueError => h
  | _ => m
  end.

(** [try: m  except Exception: return None] for a body that returns a
    dictionary. *)
Definition except_Exception {A : Type} (m : py (option A)) : option A :=
  match m with
  | Ok r => r
  | Raise _ => None
  end.

(** ** Characters and [str] methods *)

Definition code (c : ascii) : Z := Z.of_N (N_of_ascii c).

Definition is_digit (c : ascii) : bool := (48 <=? code c) && (code c <=? 57).

Definition digit_value (c : ascii) : Z := code c - 48.

(** [str.isspace] on one character: TAB, LF, VT, FF, CR, the four
    separators FS, GS, RS, US and the blank. *)
Definition isspace (c : ascii) : bool :=
  let n := code c in
  ((9 <=? n) && (n <=? 13)) || ((28 <=? n) && (n <=? 32)).

(** The C-level test [Py_ISSPACE] that [int()] and [float()] use. *)
Definition Py_ISSPACE (c : ascii) : bool :=
  let n := code c in
  ((9 <=? n) && (n <=? 13)) || (n =? 32).

Definition is_empty (s : string) : bool :=
  match s with
  | EmptyString => true
  | String _ _ => false
  end.

Fixpoint lstrip_by (sp : ascii -> bool) (s : string) : string :=
  match s with
  | EmptyString => EmptyString
  | String c s' => if sp c then lstrip_by sp s' else s
  end.

Fixpoint rstrip_by (sp : ascii -> bool) (s : string) : string :=
  match s with
  | EmptyString => EmptyString
  | String c s' =>
      let r := rstrip_by sp s' in
      if sp c && is_empty r then EmptyString else String c r
  end.

Definition strip_by (sp : ascii -> bool) (s : string) : string :=
  rstrip_by sp (lstrip_by sp s).

(** [s.strip()] *)
Definition strip (s : string) : string := strip_by isspace s.

(** [s.startswith(p)] *)
Definition startswith (s p : string) : bool := String.prefix p s.

(** [sub in s] for two strings *)
Fixpoint contains (sub s : string) : bool :=
  String.prefix sub s ||
  match s with
  | EmptyString => false
  | String _ s' => contains sub s'
  end.

(** [s.split(sep)] for a one-character separator *)
Fixpoint split (sep : ascii) (s : string) : list string :=
  match s with
  | EmptyString => [EmptyString]
  | String c s' =>
      if Ascii.eqb c sep then EmptyString :: split sep s'
      else match split sep s' with
           | h :: t => String c h :: t
           | [] => [String c EmptyString]
           end
  end.

(** [s.replace(c, '')] for a one-character [c] *)
Fixpoint remove_char (c : ascii) (s : string) : string :=
  match s with
  | EmptyString => EmptyString
  | String d s' =>
      if Ascii.eqb d c then remove_char c s' else String d (remove_char c s')
  end.

Fixpoint repeat_char (c : ascii) (n : nat) : string :=
  match n with
  | O => EmptyString
  | S n' => String c (repeat_char c n')
  end.

(** [s.zfill(width)]: zeros go after a leading sign. *)
Definition zfill (s : string) (width : nat) : string :=
  let pad := repeat_char "0"%char (width - String.length s) in
  match s with
  | String c s' =>
      if Ascii.eqb c "+"%char || Ascii.eqb c "-"%char
      then String c (pad ++ s')
      else pad ++ s
  | EmptyString => pad
  end.

Definition dquote : ascii := "034"%char.

(** [re.search] with the pattern of one double-quoted group without
    double quotes inside: the text between the first double quote and the
    next one; no match unless there are two. *)
Fixpoint until_quote (s : string) : option string :=
  match s with
  | EmptyString => None
  | String c s' =>
      if Ascii.eqb c dquote then Some EmptyString
      else match until_quote s' with
           | Some g => Some (String c g)
           | None => None
           end
  end.

Fixpoint search_quoted (s : string) : option string :=
  match s with
  | EmptyString => None
  | String c s' =>
      if Ascii.eqb c dquote then until_quote s' else search_quoted s'
  end.

(** [data_parts[i]] *)
Definition getitem (l : list string) (i : nat) : py string :=
  match nth_error l i with
  | Some x => Ok x
  | None => Raise IndexError
  end.

(** ** [int()] and [float()] on text *)

Definition underscore : ascii := "_"%char.

(** Underscores in numeric text are accepted only between two digits; the
    runtime checks this on the whole text and then drops them. *)
Fixpoint remove_underscores_from (prev : ascii) (s : string) : option string :=
  match s with
  | EmptyString => if Ascii.eqb prev underscore then None else Some EmptyString
  | String c s' =>
      if Ascii.eqb c underscore then
        if is_digit prev then remove_underscores_from c s' else None
      else if Ascii.eqb prev underscore && negb (is_digit c) then None
      else option_map (String c) (remove_underscores_from c s')
  end.

Definition remove_underscores (s : string) : option string :=
  remove_underscores_from Ascii.zero s.

(** Longest run of decimal digits at the front of [s]: the value it adds
    to [acc], the number of digits, and the rest of the text. *)
Fixpoint take_digits (s : string) (acc : Z) (n : Z) : Z * Z * string :=
  match s with
  | String c s' =>
      if is_digit c then take_digits s' (10 * acc + digit_value c) (n + 1)
      else (acc, n, s)
  | EmptyString => (acc, n, s)
  end.

Definition parse_sign (s : string) : bool * string :=
  match s with
  | String c s' =>
      if Ascii.eqb c "-"%char then (true, s')
      else if Ascii.eqb c "+"%char then (false, s')
      else (false, s)
  | EmptyString => (false, s)
  end.

(** [int(s)] in base 10 *)
Definition int_of_string (s : string) : py Z :=
  match remove_underscores s with
  | None => Raise ValueError
  | Some s1 =>
      let '(neg, body) := parse_sign (strip_by Py_ISSPACE s1) in
      let '(v, n, rest) := take_digits body 0 0 in
      if (n =? 0) || negb (is_empty rest) then Raise ValueError
      else Ok (if neg then - v else v)
  end.

(** Binary64. *)
Definition prec : Z := 53.
Definition emax : Z := 1024.

Definition float := spec_float.

Definition fzero : float := S754_zero false.
Definition fone : float := S754_finite false 4503599627370496 (-52).

(** The binary64 number nearest to [m * 10^e], ties to even, for [m >= 0]. *)
Definition float_of_decimal (neg : bool) (m e : Z) : float :=
  match m with
  | Zpos p =>
      if 0 <=? e then binary_round prec emax neg (p * Z.to_pos (10 ^ e)) 0
                      
      else SFdiv prec emax (S754_finite neg p 0)
                           (S754_finite false (Z.to_pos (10 ^ (- e))) 0)
  | _ => S754_zero neg
  end.

Definition lower (c : ascii) : ascii :=
  if (65 <=? code c) && (code c <=? 90)
  then ascii_of_N (Z.to_N (code c + 32)) else c.

Fixpoint lower_str (s : string) : string :=
  match s with
  | EmptyString => EmptyString
  | String c s' => String (lower c) (lower_str s')
  end.

(** Decimal literal [digits [. digits] [e [sign] digits]] with at least one
    digit before the exponent: the integer mantissa and the power of ten. *)
Definition parse_decimal (body : string) : option (Z * Z) :=
  let '(m1, n1, r1) := take_digits body 0 0 in
  let '(m, nfrac, r2) :=
    match r1 with
    | String c r =>
        if Ascii.eqb c "."%char then take_digits r m1 0 else (m1, 0, r1)
    | EmptyString => (m1, 0, r1)
    end in
  if n1 + nfrac =? 0 then None
  else match r2 with
       | EmptyString => Some (m, - nfrac)
       | String c r3 =>
           if Ascii.eqb (lower c) "e"%char then
             let '(eneg, r4) := parse_sign r3 in
             let '(ev, en, r5) := take_digits r4 0 0 in
             if (en =? 0) || negb (is_empty r5) then None
             else Some (m, (if eneg then - ev else ev) - nfrac)
           else None
       end.

(** [float(s)] for a [str] *)
Definition float_of_string (s : string) : py float :=
  match remove_underscores s with
  | None => Raise ValueError
  | Some s1 =>
      let '(neg, body) := parse_sign (strip_by Py_ISSPACE s1) in
      let lb := lower_str body in
      if (lb =? "inf")%string || (lb =? "infinity")%string
      then Ok (S754_infinity neg)
      else if (lb =? "nan")%string then Ok S754_nan
      else match parse_decimal body with
           | Some (m, e) => Ok (float_of_decimal neg m e)
           | None => Raise ValueError
           end
  end.

(** [float(n)] for an [int]: the nearest binary64 number, [OverflowError]
    when it is out of range. *)
Definition float_of_int (z : Z) : py float :=
  match binary_normalize prec emax z 0 false with
  | S754_infinity _ => Raise OverflowError
  | f => Ok f
  end.

(** [float(str(n))] for an [int]: as above, but text out of range reads
    as an infinity. *)
Definition float_of_int_text (z : Z) : float :=
  binary_normalize prec emax z 0 false.

(** Arithmetic and comparison of the program. *)
Definition fsub (x y : float) : float := SFsub prec emax x y.
Definition fabs (x : float) : float := SFabs x.
Definition fle (x y : float) : bool := SFleb x y.
Definition flt (x y : float) : bool := SFltb x y.

(** ** [datetime] *)

Record date : Type := mkdate { year : Z; month : Z; day : Z }.

Record time : Type :=
  mktime { hour : Z; minute : Z; second : Z; microsecond : Z }.

Record datetime : Type := mkdatetime { dt_date : date; dt_time : time }.

Definition is_leap (y : Z) : bool :=
  (y mod 4 =? 0) && (negb (y mod 100 =? 0) || (y mod 400 =? 0)).

Definition days_in_month (y m : Z) : Z :=
  if (m =? 2) && is_leap y then 29
  else nth (Z.to_nat m) [0; 31; 28; 31; 30; 31; 30; 31; 31; 30; 31; 30; 31] 0.

Definition days_before_year (y : Z) : Z :=
  let y' := y - 1 in
  y' * 365 + y' / 4 - y' / 100 + y' / 400.

Definition days_before_month (y m : Z) : Z :=
  nth (Z.to_nat m) [0; 0; 31; 59; 90; 120; 151; 181; 212; 243; 273; 304; 334] 0
  + (if (2 <? m) && is_leap y then 1 else 0).

(** Proleptic Gregorian ordinal; 0001-01-01 is day 1. *)
Definition toordinal (d : date) : Z :=
  days_before_year (year d) + days_before_month (year d) (month d) + day d.

(** [d.weekday()]: Monday is 0, Sunday is 6. *)
Definition weekday (d : date) : Z := (toordinal d + 6) mod 7.

(** The range check of the [date] constructor. *)
Definition valid_date (y m d : Z) : bool :=
  (1 <=? y) && (y <=? 9999) && (1 <=? m) && (m <=? 12) &&
  (1 <=? d) && (d <=? days_in_month y m).

Definition make_date (y m d : Z) : py date :=
  if valid_date y m d then Ok (mkdate y m d) else Raise ValueError.

(** Dates compare as the triples (year, month, day). *)
Definition date_compare (a b : date) : comparison :=
  match year a ?= year b with
  | Eq => match month a ?= month b with
          | Eq => day a ?= day b
          | c => c
          end
  | c => c
  end.

Definition date_gt (a b : date) : bool :=
  match date_compare a b with Gt => true | _ => false end.

Definition date_eq (a b : date) : bool :=
  match date_compare a b with Eq => true | _ => false end.

(** Times compare as the tuples (hour, minute, second, microsecond). *)
Definition time_compare (a b : time) : comparison :=
  match hour a ?= hour b with
  | Eq => match minute a ?= minute b with
          | Eq => match second a ?= second b with
                  | Eq => microsecond a ?= microsecond b
                  | c => c
                  end
          | c => c
          end
  | c => c
  end.

Definition time_le (a b : time) : bool :=
  match time_compare a b with Gt => false | _ => true end.

(** *** [datetime.strptime(s, '%Y-%m-%d').date()]

    The format compiles to one regular expression: four digits for the
    year; for the month the alternatives 1[0-2], 0[1-9], [1-9]; for the
    day the alternatives 3[0-1], [1-2] digit, 0[1-9], [1-9], blank [1-9];
    alternatives are tried in this order.  The match starts at the first
    character, text left over after it is an error, and the three numbers
    then go through the range check of [date]. *)

Definition is_char (x : ascii) (c : ascii) : bool := Ascii.eqb c x.

Definition between (lo hi : ascii) (c : ascii) : bool :=
  (code lo <=? code c) && (code c <=? code hi).

Definition two_chars (p1 p2 : ascii -> bool) (s : string) : option (Z * string) :=
  match s with
  | String a (String b r) =>
      if p1 a && p2 b then Some (10 * digit_value a + digit_value b, r)
      else None
  | _ => None
  end.

Definition one_char (p : ascii -> bool) (s : string) : option (Z * string) :=
  match s with
  | String a r => if p a then Some (digit_value a, r) else None
  | EmptyString => None
  end.

Definition blank_then (p : ascii -> bool) (s : string) : option (Z * string) :=
  match s with
  | String a (String b r) =>
      if is_char " " a && p b then Some (digit_value b, r) else None
  | _ => None
  end.

Definition orelse {A : Type} (x y : option A) : option A :=
  match x with
  | Some _ => x
  | None => y
  end.

Definition then_hyphen (r : option (Z * string)) : option (Z * string) :=
  match r with
  | Some (v, String c s') => if is_char "-" c then Some (v, s') else None
  | _ => None
  end.

Definition match_Y (s : string) : option (Z * string) :=
  match s with
  | String a (String b (String c (String d r))) =>
      if is_digit a && is_digit b && is_digit c && is_digit d
      then Some (1000 * digit_value a + 100 * digit_value b
                 + 10 * digit_value c + digit_value d, r)
      else None
  | _ => None
  end.

Definition match_m (s : string) : option (Z * string) :=
  orelse (then_hyphen (two_chars (is_char "1") (between "0" "2") s))
 (orelse (then_hyphen (two_chars (is_char "0") (between "1" "9") s))
         (then_hyphen (one_char (between "1" "9") s))).

Definition match_d (s : string) : option (Z * string) :=
  orelse (two_chars (is_char "3") (between "0" "1") s)
 (orelse (two_chars (between "1" "2") is_digit s)
 (orelse (two_chars (is_char "0") (between "1" "9") s)
 (orelse (one_char (between "1" "9") s)
         (blank_then (between "1" "9") s)))).

Definition strptime_Ymd (s : string) : py date :=
  match then_hyphen (match_Y s) with
  | Some (y, s1) =>
      match match_m s1 with
      | Some (m, s2) =>
          match match_d s2 with
          | Some (d, EmptyString) => make_date y m d
          | _ => Raise ValueError
          end
      | None => Raise ValueError
      end
  | None => Raise ValueError
  end.

(** *** [strftime('%Y-%m-%d')] of a date *)

Definition digit_char (z : Z) : ascii := ascii_of_N (Z.to_N (48 + z mod 10)).

Definition two_digits (z : Z) : string :=
  String (digit_char (z / 10)) (String (digit_char z) EmptyString).

Definition four_digits (z : Z) : string :=
  String (digit_char (z / 1000)) (String (digit_char (z / 100))
    (two_digits z)).

Definition strftime_Ymd (d : date) : string :=
  four_digits (year d) ++ "-" ++ two_digits (month d) ++ "-"
  ++ two_digits (day d).

(** ** JSON values as [json.loads] builds them

    A [dict] is the list of its items in insertion order; its keys are
    distinct.  Python [None] is [JNull]. *)

#[warnings="-register-all"]
Inductive json : Type :=
| JNull
| JBool (b : bool)
| JInt (n : Z)
| JFloat (x : float)
| JStr (s : string)
| JArr (items : list json)
| JObj (members : list (string * json)).

(** Truth value of an object in a condition. *)
Definition truthy (v : json) : bool :=
  match v with
  | JNull => false
  | JBool b => b
  | JInt n => negb (n =? 0)
  | JFloat x => match x with S754_zero _ => false | _ => true end
  | JStr s => negb (is_empty s)
  | JArr items => match items with [] => false | _ => true end
  | JObj members => match members with [] => false | _ => true end
  end.

(** [d[k]] on the items of a dict, [None] standing for [KeyError]. *)
Fixpoint lookup (k : string) (members : list (string * json)) : option json :=
  match members with
  | [] => None
  | (k', v) :: rest => if (k' =? k)%string then Some v else lookup k rest
  end.

(** [k in d] *)
Definition has_key (k : string) (members : list (string * json)) : bool :=
  match lookup k members with
  | Some _ => true
  | None => false
  end.

(** [d.get(k, default)] *)
Definition dict_get (k : string) (default : json)
    (members : list (string * json)) : json :=
  match lookup k members with
  | Some v => v
  | None => default
  end.

Definition is_None (v : json) : bool :=
  match v with
  | JNull => true
  | _ => false
  end.

End Py.

(* ================================================================== *)
(** * TAQ_Checker_ShenzhenReal.py: class SZSEOfficialDataFetcher        *)
(* ================================================================== *)

Module TAQ_Checker_ShenzhenReal.
Import Py.

(** ** The environment of one call *)

(** One reading of the wall clock.  [today] is the local calendar date
    ([date.today()], [datetime.now()]); [now_beijing] is the local time at
    UTC+8, [None] when reading it raises. *)
Record clock : Type := mkclock {
  today : date;
  now_beijing : option datetime
}.

(** An HTTP GET of the session and what comes back: a transport or status
    error, a body that is not JSON, or the decoded JSON value. *)
Record request : Type := mkrequest {
  url : string;
  params : list (string * string)
}.

Inductive response : Type :=
| RequestException
| JSONDecodeError
| Body (data : json).

Definition network : Type := request -> response.

(** The result dictionary.  [expected_open = None] is Python [None];
    [match_status] and [market_status] are [None] while the key is not
    set.  The numeric default [0] of [open] is kept as [0.0], which is how it
    enters the subtraction and the formatting that follow. *)
Record stock_data : Type := mkstock {
  symbol : string;
  name : json;
  open : float;
  data_type : string;
  expected_open : option float;
  match_status : option string;
  market_status : option string
}.

Definition historical_url : string :=
  "https://www.szse.cn/api/report/ShowReport/data".
Definition current_url : string :=
  "https://www.szse.cn/api/market/ssjjhq/getTimeData".

(** ** Trading calendar *)

Definition pad_ticker (symbol : string) : string := zfill symbol 6.

Definition is_weekend (target_date : string) : py bool :=
  except_ValueError
    (date_obj <- strptime_Ymd target_date ;;
     Ok (5 <=? weekday date_obj))
    (Ok false).

Definition morning_start : time := mktime 9 30 0 0.
Definition morning_end : time := mktime 11 30 0 0.
Definition afternoon_start : time := mktime 13 0 0 0.
Definition afternoon_end : time := mktime 15 0 0 0.

Definition is_market_open_now (c : clock) : bool :=
  match now_beijing c with
  | Some now =>
      if 5 <=? weekday (dt_date now) then false
      else
        let current_time := dt_time now in
        let is_morning_session :=
          time_le morning_start current_time && time_le current_time morning_end in
        let is_afternoon_session :=
          time_le afternoon_start current_time
          && time_le current_time afternoon_end in
        is_morning_session || is_afternoon_session
  | None => true
  end.

Definition create_market_closed_result (symbol : string)
    (expected_open : option float) (reason : string) : stock_data :=
  {| symbol := symbol;
     name := JStr "N/A";
     open := fzero;
     expected_open := expected_open;
     match_status := Some "MARKET CLOSED";
     data_type := reason;
     market_status := Some reason |}.

(** ** Session resolver *)

Definition get_date_mode (c : clock) (target_date : option string)
    : py (string * string) :=
  match target_date with
  | None =>
      let current_date := strftime_Ymd (today c) in
      if negb (is_market_open_now c)
      then Ok ("market_closed_now", current_date)
      else Ok ("current", current_date)
  | Some target_date =>
      except_ValueError
        (target_dt <- strptime_Ymd target_date ;;
         if date_gt target_dt (today c) then Ok ("invalid", target_date)
         else if date_eq target_dt (today c) then
           if negb (is_market_open_now c)
           then Ok ("market_closed_now", target_date)
           else Ok ("current", target_date)
         else
           weekend <- is_weekend target_date ;;
           if weekend then Ok ("market_closed_weekend", target_date)
           else Ok ("historical", target_date))
        (Ok ("invalid", target_date))
  end.

(** ** Structured snapshot decoder *)

(** [float(v)] for a JSON value (a [bool] is an [int]). *)
Definition py_float (v : json) : py float :=
  match v with
  | JStr s => float_of_string s
  | JInt n => float_of_int n
  | JFloat x => Ok x
  | JBool b => Ok (if b then fone else fzero)
  | JNull | JArr _ | JObj _ => Raise TypeError
  end.

Definition parse_current_data (api_data : json) (symbol : string)
    : option stock_data :=
  except_Exception
    match api_data with
    | JObj d =>
        let name := dict_get "stockname" (dict_get "name" (JStr "N/A") d) d in
        open <- py_float (dict_get "open" (dict_get "openPrice" (JInt 0) d) d) ;;
        Ok (Some {| symbol := symbol;
                    name := name;
                    open := open;
                    data_type := "current";
                    expected_open := None;
                    match_status := None;
                    market_status := None |})
    | _ => Raise AttributeError
    end.

(** Inner function of [parse_historical_data].  [str(value)] of a float
    reads back as the same float, of an int as the nearest float; the text
    of [True], [False], a list or a dict is no number. *)
Definition safe_float_conversion (value : json) (default : float) : float :=
  match value with
  | JNull => default
  | JStr s =>
      if (s =? "")%string || (s =? "-")%string then default
      else match float_of_string (strip (remove_char "," s)) with
           | Ok x => x
           | Raise _ => default
           end
  | JInt n => float_of_int_text n
  | JFloat x => x
  | JBool _ | JArr _ | JObj _ => default
  end.

(** [data_record[field_name]] guarded by [field_name in data_record]:
    a dict is looked up; in a string the test is a substring test and in a
    list a membership test, and subscripting either with a string raises;
    any other value cannot be tested. *)
Definition guarded_item (field_name : string) (data_record : json)
    : py (option json) :=
  match data_record with
  | JObj d => Ok (lookup field_name d)
  | JStr s => if contains field_name s then Raise TypeError else Ok None
  | JArr items =>
      if existsb (fun x => match x with
                           | JStr s => (s =? field_name)%string
                           | _ => false
                           end) items
      then Raise TypeError else Ok None
  | JNull | JBool _ | JInt _ | JFloat _ => Raise TypeError
  end.

(** Inner function of [parse_historical_data].  The flag [is_numeric] is
    the conversion [conv]: [safe_float_conversion] when it is set, the
    identity when it is not. *)
Fixpoint get_field_value {A : Type} (conv : json -> A) (data_record : json)
    (field_names : list string) (default : A) : py A :=
  match field_names with
  | [] => Ok default
  | field_name :: rest =>
      item <- guarded_item field_name data_record ;;
      match item with
      | Some value =>
          if is_None value then get_field_value conv data_record rest default
          else match value with
               | JStr s =>
                   if is_empty (strip s)
                   then get_field_value conv data_record rest default
                   else Ok (conv value)
               | _ => Ok (conv value)
               end
      | None => get_field_value conv data_record rest default
      end
  end.

Definition name_fields : list string := ["zqjc"; "stockname"; "name"; "gsjc"; "mc"].
Definition open_fields : list string := ["ks"; "kpjg"; "open"; "kaiPanJia"].

Definition parse_historical_data (api_data : json) (symbol target_date : string)
    : option stock_data :=
  except_Exception
    match
      match api_data with
      | JArr (first :: _) => Some first
      | JArr [] => None
      | JObj _ => Some api_data
      | _ => None
      end
    with
    | None => Ok None
    | Some data_record =>
        if negb (truthy data_record) then Ok None
        else
          name <- get_field_value (fun v => v) data_record name_fields
                    (JStr "N/A") ;;
          open <- get_field_value (fun v => safe_float_conversion v fzero)
                    data_record open_fields fzero ;;
          Ok (Some {| symbol := symbol;
                      name := name;
                      open := open;
                      data_type := "historical";
                      expected_open := None;
                      match_status := None;
                      market_status := None |})
    end.

(** ** Shape normalization of a response *)

Definition container_keys : list string :=
  ["data"; "result"; "rows"; "items"; "records"].

Definition stock_keys : list string :=
  ["zqdm"; "stockcode"; "code"; "zqjc"; "stockname"].

(** [for key in container_keys: if key in data and data[key]: ...; break] *)
Fixpoint first_container (keys : list string) (data : list (string * json))
    : json :=
  match keys with
  | [] => JNull
  | key :: rest =>
      match lookup key data with
      | Some v => if truthy v then v else first_container rest data
      | None => first_container rest data
      end
  end.

(** [for key, value in data.items(): if value ...: ...; break] *)
Fixpoint first_non_empty (data : list (string * json)) : json :=
  match data with
  | [] => JNull
  | (_, value) :: rest => if truthy value then value else first_non_empty rest
  end.

Definition dict_content (data : list (string * json)) : json :=
  let data_content := first_container container_keys data in
  if is_None data_content then first_non_empty data else data_content.

(** First loop over an array response. *)
Fixpoint scan_elements (data : list json) : json :=
  match data with
  | [] => JNull
  | item :: rest =>
      match item with
      | JObj d =>
          if has_key "metadata" d then scan_elements rest
          else if has_key "data" d || (3 <? List.length d)%nat
          then dict_get "data" item d
          else if existsb (fun key => has_key key d) stock_keys then item
          else scan_elements rest
      | _ => scan_elements rest
      end
  end.

(** Second loop: an element whose [data] is a list of records. *)
Fixpoint scan_data_arrays (data : list json) : json :=
  match data with
  | [] => JNull
  | item :: rest =>
      match item with
      | JObj d =>
          match lookup "data" d with
          | Some (JArr records) => JArr records
          | _ => scan_data_arrays rest
          end
      | _ => scan_data_arrays rest
      end
  end.

(** Final fallback over [data[1:]]. *)
Fixpoint scan_tail (items : list json) : json :=
  match items with
  | [] => JNull
  | item :: rest =>
      match item with
      | JObj d => if (1 <? List.length d)%nat then item else scan_tail rest
      | _ => scan_tail rest
      end
  end.

Definition array_content (data : list json) : json :=
  let c1 := scan_elements data in
  let c2 := if is_None c1 then scan_data_arrays data else c1 in
  if is_None c2 && (1 <? List.length data)%nat then scan_tail (tl data) else c2.

(** ** Fetching: one GET, then decoding.  Both functions return the
    requests they issued together with their result. *)

Definition fetch_current_data (net : network) (symbol : string)
    : list request * option stock_data :=
  let ticker_padded := pad_ticker symbol in
  let req := {| url := current_url;
                params := [("random", "0.123456"); ("marketId", "1");
                           ("code", ticker_padded); ("language", "EN")] |} in
  ([req],
   match net req with
   | Body data =>
       let data_content :=
         match data with
         | JObj d => dict_content d
         | _ => JNull
         end in
       if truthy data_content then parse_current_data data_content symbol
       else None
   | JSONDecodeError => None
   | RequestException => None
   end).

Definition fetch_historical_data (net : network) (symbol target_date : string)
    : list request * option stock_data :=
  let ticker_padded := pad_ticker symbol in
  let req := {| url := historical_url;
                params := [("SHOWTYPE", "JSON");
                           ("CATALOGID", "1394_stock_snapshot");
                           ("TABKEY", "tab1");
                           ("txtDMorJC", ticker_padded);
                           ("txtDate", target_date);
                           ("archiveDate", target_date);
                           ("random", "0.123456")] |} in
  ([req],
   match net req with
   | Body data =>
       let data_content :=
         match data with
         | JArr items => array_content items
         | JObj d => dict_content d
         | _ => JNull
         end in
       if truthy data_content
       then parse_historical_data data_content symbol target_date
       else None
   | JSONDecodeError => None
   | RequestException => None
   end).

(** ** Reconciliation and orchestration *)

(** The literal [0.01]. *)
Definition tolerance : float := S754_finite false 5764607523034235 (-59).

(** [d['expected_open'] = e] followed by [d['match_status'] = status] *)
Definition with_match (d : stock_data) (e : option float) (status : string)
    : stock_data :=
  {| symbol := symbol d;
     name := name d;
     open := open d;
     data_type := data_type d;
     expected_open := e;
     match_status := Some status;
     market_status := market_status d |}.

Definition get_stock_data (c : clock) (net : network) (symbol : string)
    (expected_open : option float) (target_date : option string)
    : py (list request * option stock_data) :=
  md <- get_date_mode c target_date ;;
  let '(mode, date_str) := md in
  if (mode =? "invalid")%string then Ok ([], None)
  else if (mode =? "market_closed_weekend")%string then
    Ok ([], Some (create_market_closed_result symbol expected_open
                    "Weekend - Market Closed"))
  else if (mode =? "market_closed_now")%string then
    Ok ([], Some (create_market_closed_result symbol expected_open
                    "Outside Trading Hours"))
  else
    let '(sent, fetched) :=
      if (mode =? "current")%string then fetch_current_data net symbol
      else fetch_historical_data net symbol date_str in
    match fetched with
    | None => Ok (sent, None)
    | Some stock_data =>
        let status :=
          match expected_open with
          | Some e =>
              if fle (fabs (fsub (open stock_data) e)) tolerance
              then "MATCHED" else "NOT MATCHED"
          | None => "NO EXPECTED PRICE"
          end in
        Ok (sent, Some (with_match stock_data expected_open status))
    end.


(** ** Batch retrieval *)

(** One entry of [symbols_data]. *)
Record symbol_info : Type := mksymbol_info {
  info_symbol : string;
  info_expected_open : option float
}.

(** The loop of [get_multiple_symbols], from the [i]-th symbol on.  Between
    two symbols the program sleeps, so clock and network are read anew for
    each: [env i] is what the [i]-th call sees.  A result dictionary is
    never empty, so [if data] holds for every result. *)
Fixpoint get_multiple_symbols_from (env : nat -> clock * network) (i : nat)
    (symbols_data : list symbol_info) (target_date : option string)
    : py (list request * list stock_data) :=
  match symbols_data with
  | [] => Ok ([], [])
  | symbol_info :: rest =>
      out <- get_stock_data (fst (env i)) (snd (env i))
               (info_symbol symbol_info) (info_expected_open symbol_info)
               target_date ;;
      more <- get_multiple_symbols_from env (S i) rest target_date ;;
      Ok ((fst out ++ fst more)%list,
          match snd out with
          | Some data => data :: snd more
          | None => snd more
          end)
  end.

Definition get_multiple_symbols (env : nat -> clock * network)
    (symbols_data : list symbol_info) (target_date : option string)
    : py (list request * list stock_data) :=
  get_multiple_symbols_from env 0 symbols_data target_date.

(** ** Display and single lookup *)

(** [display_simple_result] prints one line.  The line is not modelled;
    what is kept is the one thing that can go wrong: both branches format
    [data['expected_open']] with [.2f], which raises [TypeError] on
    [None]. *)
Definition display_simple_result (data : stock_data) : py unit :=
  match expected_open data with
  | Some _ => Ok tt
  | None => Raise TypeError
  end.

Definition quick_lookup (c : clock) (net : network) (symbol : string)
    (expected_open : option float) (target_date : option string)
    : py (list request * option stock_data) :=
  out <- get_stock_data c net symbol expected_open target_date ;;
  match snd out with
  | Some data =>
      _ <- display_simple_result data ;;
      Ok (fst out, Some data)
  | None => Ok (fst out, None)
  end.

(** ** Prompts

    [input()] reads the next line typed; at the end of the input it raises
    [EOFError], which no handler of the program catches.  A prompt
    function takes the lines still to be read and returns its value with
    the lines it left. *)

Inductive console (A : Type) : Type :=
| Return (a : A) (unread : list string)
| EOFError.

Arguments Return {A} a unread.
Arguments EOFError {A}.

(** What is typed may hold any character with a code below 256.  Among
    those, [str.strip] also removes the next-line character and the
    no-break space (codes 133 and 160), and [str.isdigit] also accepts the
    superscripts two, three and one (codes 178, 179 and 185). *)
Definition typed_isspace (c : ascii) : bool :=
  isspace c || (code c =? 133) || (code c =? 160).

(** [s.strip()] of a typed line *)
Definition typed_strip (s : string) : string := strip_by typed_isspace s.

Definition isdigit_char (c : ascii) : bool :=
  is_digit c || (code c =? 178) || (code c =? 179) || (code c =? 185).

(** [s.isdigit()] *)
Fixpoint all_digits (s : string) : bool :=
  match s with
  | EmptyString => true
  | String c s' => isdigit_char c && all_digits s'
  end.

Definition isdigit (s : string) : bool := negb (is_empty s) && all_digits s.

(** The [while True] loop of [get_target_date] after choice 2. *)
Fixpoint read_date (lines : list string) : console (option string) :=
  match lines with
  | [] => EOFError
  | line :: rest =>
      let date_input := typed_strip line in
      match strptime_Ymd date_input with
      | Ok date_obj =>
          if 5 <=? weekday date_obj then
            match rest with
            | [] => EOFError
            | answer :: rest' =>
                let confirm := lower_str (typed_strip answer) in
                if negb ((confirm =? "y")%string || (confirm =? "yes")%string)
                then read_date rest'
                else Return (Some date_input) rest'
            end
          else Return (Some date_input) rest
      | Raise _ => read_date rest
      end
  end.

Definition get_target_date (lines : list string) : console (option string) :=
  match lines with
  | [] => EOFError
  | line :: rest =>
      let choice := typed_strip line in
      if (choice =? "2")%string then read_date rest else Return None rest
  end.

(** The loops of [get_symbols_with_expected_prices].  Each [input()] of the
    function is one state: the symbol, the price of that symbol (asked again
    until it reads as a float), and whether to go on. *)
Inductive entry_state : Type :=
| EnterSymbol
| EnterPrice (symbol : string)
| AddAnother.

Fixpoint read_symbols (state : entry_state) (symbols_data : list symbol_info)
    (lines : list string) : console (list symbol_info) :=
  match lines with
  | [] => EOFError
  | line :: rest =>
      match state with
      | EnterSymbol =>
          let symbol := typed_strip line in
          if is_empty symbol then Return symbols_data rest
          else if negb (isdigit symbol && (String.length symbol =? 6)%nat)
          then read_symbols EnterSymbol symbols_data rest
          else read_symbols (EnterPrice symbol) symbols_data rest
      | EnterPrice symbol =>
          let equ_price_input := typed_strip line in
          if is_empty equ_price_input
          then read_symbols (EnterPrice symbol) symbols_data rest
          else match float_of_string equ_price_input with
               | Ok equ_price =>
                   read_symbols AddAnother
                     (symbols_data
                      ++ [{| info_symbol := symbol;
                             info_expected_open := Some equ_price |}])%list
                     rest
               | Raise _ => read_symbols (EnterPrice symbol) symbols_data rest
               end
      | AddAnother =>
          let continue_choice := lower_str (typed_strip line) in
          if (continue_choice =? "n")%string
             || (continue_choice =? "no")%string
          then Return symbols_data rest
          else read_symbols EnterSymbol symbols_data rest
      end
  end.

Definition get_symbols_with_expected_prices (lines : list string)
    : console (list symbol_info) :=
  read_symbols EnterSymbol [] lines.

End TAQ_Checker_ShenzhenReal.

(* ================================================================== *)
(** * Shenzhen_Real_Time_Final.py and Real_Time_ShenZhen2.py:
      class SZSEDataFetcher                                             *)
(* ================================================================== *)

(** The two files define the same [format_symbol] and the same
    [get_realtime_data], up to the expected data used when the caller
    passes none.  The common text is modelled once, over that choice. *)

Module SZSEDataFetcher.
Import Py.

(** The [expected_data] dictionary of a symbol. *)
Record expected : Type := mkexpected {
  sid : string;
  equ_open : option float
}.

(** The dictionary built from one record of the feed. *)
Record stock_data : Type := mkstock {
  stock_sid : string;
  symbol : string;
  name : string;
  code : string;
  current_price : float;
  yesterday_close : float;
  open : float;
  open_equ_prices : option float;
  volume : Z;
  volume_shares : Z;
  turnover : float;
  bid1_price : float;
  bid1_volume : Z;
  ask1_price : float;
  ask1_volume : Z;
  high : float;
  low : float;
  change : float;
  change_percent : float;
  timestamp : string;
  last_update : string;
  match_status : string
}.

Definition base_url : string := "http://qt.gtimg.cn/q=".

Definition format_symbol (symbol : string) : string :=
  if startswith symbol "300" || startswith symbol "000"
     || startswith symbol "002"
  then "sz" ++ symbol
  else if startswith symbol "60" || startswith symbol "68"
  then "sh" ++ symbol
  else "sz" ++ symbol.

(** [float(data_parts[i]) if data_parts[i] else 0] *)
Definition float_at (data_parts : list string) (i : nat) : py float :=
  x <- getitem data_parts i ;;
  if negb (is_empty x) then float_of_string x else Ok fzero.

(** [int(data_parts[i]) if data_parts[i] else 0] *)
Definition int_at (data_parts : list string) (i : nat) : py Z :=
  x <- getitem data_parts i ;;
  if negb (is_empty x) then int_of_string x else Ok 0.

(** [float(data_parts[i]) if len(data_parts) > i and data_parts[i] else 0] *)
Definition float_beyond (data_parts : list string) (i : nat) : py float :=
  if (i <? List.length data_parts)%nat then float_at data_parts i
  else Ok fzero.

(** The literal [0.01]. *)
Definition tolerance : float := S754_finite false 5764607523034235 (-59).

Section GetRealtimeData.

(** The real-time feed: the text of the response to a GET of a URL, [None]
    for a transport or status error. *)
Variable http : string -> option string.

(** [datetime.now().strftime('%Y-%m-%d %H:%M:%S')] at the time of the call. *)
Variable now : string.

(** The expected data taken when the caller passes [None]. *)
Variable default_expected : string -> expected.

Definition get_realtime_data (symbol : string)
    (expected_data : option expected) : option stock_data :=
  let formatted_symbol := format_symbol symbol in
  let url := base_url ++ formatted_symbol in
  match http url with
  | None => None
  | Some text =>
    except_Exception
      (let data_str := strip text in
       if is_empty data_str || contains "pv_none_match" data_str then Ok None
       else
         match search_quoted data_str with
         | None => Ok None
         | Some group1 =>
           let data_parts := split "~" group1 in
           if (List.length data_parts <? 30)%nat then Ok None
           else
             let expected_data :=
               match expected_data with
               | None => default_expected symbol
               | Some e => e
               end in
             name_ <- getitem data_parts 1 ;;
             code_ <- getitem data_parts 2 ;;
             current_price_ <- float_at data_parts 3 ;;
             yesterday_close_ <- float_at data_parts 4 ;;
             open_ <- float_at data_parts 5 ;;
             volume_ <- int_at data_parts 6 ;;
             volume_lots <- int_at data_parts 6 ;;
             turnover_ <- float_beyond data_parts 37 ;;
             bid1_price_ <- float_at data_parts 9 ;;
             bid1_volume_ <- int_at data_parts 10 ;;
             ask1_price_ <- float_at data_parts 19 ;;
             ask1_volume_ <- int_at data_parts 20 ;;
             high_ <- float_beyond data_parts 33 ;;
             low_ <- float_beyond data_parts 34 ;;
             change_ <- float_beyond data_parts 31 ;;
             change_percent_ <- float_beyond data_parts 32 ;;
             let timestamp_ :=
               if (30 <? List.length data_parts)%nat
               then nth 30 data_parts "" else "" in
             let status :=
               match equ_open expected_data with
               | Some e =>
                   if fle (fabs (fsub open_ e)) tolerance
                   then "MATCHED!" else "NOT MATCHED!"
               | None => "NO EXPECTED PRICE"
               end in
             Ok (Some {| stock_sid := sid expected_data;
                         symbol := symbol;
                         name := name_;
                         code := code_;
                         current_price := current_price_;
                         yesterday_close := yesterday_close_;
                         open := open_;
                         open_equ_prices := equ_open expected_data;
                         volume := volume_;
                         volume_shares := volume_lots * 100;
                         turnover := turnover_;
                         bid1_price := bid1_price_;
                         bid1_volume := bid1_volume_;
                         ask1_price := ask1_price_;
                         ask1_volume := ask1_volume_;
                         high := high_;
                         low := low_;
                         change := change_;
                         change_percent := change_percent_;
                         timestamp := timestamp_;
                         last_update := now;
                         match_status := status |})
         end)
  end.

End GetRealtimeData.

End SZSEDataFetcher.

Module Shenzhen_Real_Time_Final.
Import Py SZSEDataFetcher.

Definition format_symbol := SZSEDataFetcher.format_symbol.

(** [{'sid': f'SID_{symbol}', 'equ_open': None}] *)
Definition default_expected (symbol : string) : expected :=
  {| sid := "SID_" ++ symbol; equ_open := None |}.

Definition get_realtime_data (http : string -> option string) (now : string)
    (symbol : string) (expected_data : option expected) : option stock_data :=
  SZSEDataFetcher.get_realtime_data http now default_expected
    symbol expected_data.


(** One entry of [symbols_data]. *)
Record symbol_row : Type := mksymbol_row {
  row_symbol : string;
  row_sid : string;
  row_equ_open : option float
}.

(** The loop of [get_multiple_symbols], from the [i]-th symbol on; [env i]
    is the feed and the time of day that the [i]-th call sees.  A result
    dictionary is never empty, so [if data] holds for every result. *)
Fixpoint get_multiple_symbols_from
    (env : nat -> (string -> option string) * string) (i : nat)
    (symbols_data : list symbol_row) : list stock_data :=
  match symbols_data with
  | [] => []
  | symbol_info :: rest =>
      let expected_data :=
        {| sid := row_sid symbol_info;
           equ_open := row_equ_open symbol_info |} in
      match get_realtime_data (fst (env i)) (snd (env i))
              (row_symbol symbol_info) (Some expected_data) with
      | Some data => data :: get_multiple_symbols_from env (S i) rest
      | None => get_multiple_symbols_from env (S i) rest
      end
  end.

Definition get_multiple_symbols
    (env : nat -> (string -> option string) * string)
    (symbols_data : list symbol_row) : list stock_data :=
  get_multiple_symbols_from env 0 symbols_data.

(** Truth value of an optional float and of an optional string in a
    condition. *)
Definition float_truthy (x : option float) : bool :=
  match x with
  | Some (S754_zero _) => false
  | Some _ => true
  | None => false
  end.

Definition str_truthy (s : option string) : bool :=
  match s with
  | Some s => negb (is_empty s)
  | None => false
  end.

(** [quick_lookup]; [display_data] only prints. *)
Definition quick_lookup (http : string -> option string) (now : string)
    (symbol : string) (sid : option string) (expected_open : option float)
    : option stock_data :=
  let expected_data :=
    if str_truthy sid && float_truthy expected_open
    then Some {| SZSEDataFetcher.sid :=
                   match sid with Some s => s | None => "" end;
                 equ_open := expected_open |}
    else None in
  get_realtime_data http now symbol expected_data.

End Shenzhen_Real_Time_Final.

Module Real_Time_ShenZhen2.
Import Py SZSEDataFetcher.

Definition format_symbol := SZSEDataFetcher.format_symbol.

Fixpoint expected_prices_get (expected_prices : list (string * expected))
    (symbol : string) (default : expected) : expected :=
  match expected_prices with
  | [] => default
  | (k, v) :: rest =>
      if (k =? symbol)%string then v
      else expected_prices_get rest symbol default
  end.

(** [self.expected_prices.get(symbol, {'sid': f'SID_{symbol}', 'equ_open': None})] *)
Definition default_expected (expected_prices : list (string * expected))
    (symbol : string) : expected :=
  expected_prices_get expected_prices symbol
    {| sid := "SID_" ++ symbol; equ_open := None |}.

Definition get_realtime_data (expected_prices : list (string * expected))
    (http : string -> option string) (now : string)
    (symbol : string) (expected_data : option expected) : option stock_data :=
  SZSEDataFetcher.get_realtime_data http now
    (default_expected expected_prices) symbol expected_data.


(** A float literal of the program text. *)
Definition literal (s : string) : float :=
  match float_of_string s with
  | Ok x => x
  | Raise _ => S754_nan
  end.

(** [self.expected_prices] as [__init__] sets it. *)
Definition initial_expected_prices : list (string * expected) :=
  [("300928", {| sid := "SID001"; equ_open := Some (literal "34.11") |});
   ("000001", {| sid := "SID002"; equ_open := Some (literal "8.50") |});
   ("000002", {| sid := "SID003"; equ_open := Some (literal "6.20") |});
   ("002415", {| sid := "SID004"; equ_open := Some (literal "28.50") |});
   ("300750", {| sid := "SID005"; equ_open := Some (literal "195.00") |});
   ("600519", {| sid := "SID006"; equ_open := Some (literal "1650.00") |})].

(** [d[key] = value] on the items of a dict: an existing key keeps its
    place, a new key goes last. *)
Fixpoint dict_set (d : list (string * expected)) (key : string)
    (value : expected) : list (string * expected) :=
  match d with
  | [] => [(key, value)]
  | (k, v) :: rest =>
      if (k =? key)%string then (k, value) :: rest
      else (k, v) :: dict_set rest key value
  end.

Definition add_expected_price (expected_prices : list (string * expected))
    (symbol sid : string) (equ_open : float) : list (string * expected) :=
  dict_set expected_prices symbol {| sid := sid; equ_open := Some equ_open |}.

(** [symbol in expected_prices] and [expected_prices[symbol]] *)
Fixpoint dict_lookup (d : list (string * expected)) (key : string)
    : option expected :=
  match d with
  | [] => None
  | (k, v) :: rest =>
      if (k =? key)%string then Some v else dict_lookup rest key
  end.

(** The loop of [get_multiple_symbols], from the [i]-th symbol on.
    [self_prices] is [self.expected_prices]; [expected_prices] is the
    argument, [None] by default; [env i] is the feed and the time of day
    that the [i]-th call sees. *)
Fixpoint get_multiple_symbols_from (self_prices : list (string * expected))
    (env : nat -> (string -> option string) * string) (i : nat)
    (symbols : list string)
    (expected_prices : option (list (string * expected)))
    : list stock_data :=
  match symbols with
  | [] => []
  | symbol :: rest =>
      let expected_data :=
        match expected_prices with
        | Some (item :: items) => dict_lookup (item :: items) symbol
        | _ => None
        end in
      match get_realtime_data self_prices (fst (env i)) (snd (env i))
              symbol expected_data with
      | Some data =>
          data :: get_multiple_symbols_from self_prices env (S i) rest
                    expected_prices
      | None =>
          get_multiple_symbols_from self_prices env (S i) rest expected_prices
      end
  end.

Definition get_multiple_symbols (self_prices : list (string * expected))
    (env : nat -> (string -> option string) * string)
    (symbols : list string)
    (expected_prices : option (list (string * expected)))
    : list stock_data :=
  get_multiple_symbols_from self_prices env 0 symbols expected_prices.

(** [quick_lookup] builds a new fetcher, whose table is the initial one;
    [display_data] only prints. *)
Definition quick_lookup (http : string -> option string) (now : string)
    (symbol : string) (sid : option string) (expected_open : option float)
    : option stock_data :=
  let expected_data :=
    if Shenzhen_Real_Time_Final.str_truthy sid
       && Shenzhen_Real_Time_Final.float_truthy expected_open
    then Some {| SZSEDataFetcher.sid :=
                   match sid with Some s => s | None => "" end;
                 equ_open := expected_open |}
    else None in
  get_realtime_data initial_expected_prices http now symbol expected_data.

End Real_Time_ShenZhen2.

(* ================================================================== *)
(** * Vocabulary of the specification                                   *)
(* ================================================================== *)

Module Spec.
Import Py.

(** ISO calendar weekday Saturday (5) or Sunday (6). *)
Definition Saturday_or_Sunday (d : date) : bool :=
  (weekday d =? 5) || (weekday d =? 6).

(** A time of day as [datetime.time] builds it. *)
Definition valid_time (t : time) : Prop :=
  0 <= hour t < 24 /\ 0 <= minute t < 60 /\ 0 <= second t < 60 /\
  0 <= microsecond t < 1000000.

(** Microseconds since midnight. *)
Definition micros (t : time) : Z :=
  ((hour t * 60 + minute t) * 60 + second t) * 1000000 + microsecond t.

Definition hm (h m : Z) : Z := (h * 60 + m) * 60 * 1000000.

(** Inside a trading session: a weekday, and the wall clock within
    09:30-11:30 or 13:00-15:00, bounds included. *)
Definition within_trading_session (now : datetime) : Prop :=
  weekday (dt_date now) < 5 /\
  (hm 9 30 <= micros (dt_time now) <= hm 11 30 \/
   hm 13 0 <= micros (dt_time now) <= hm 15 0).

(** The live-session mode. *)
Definition live_mode (open_now : bool) : string :=
  if open_now then "current" else "market_closed_now".

(** Modes in which a snapshot is fetched, and modes in which the market is
    closed. *)
Definition tradeable (mode : string) : Prop :=
  mode = "current" \/ mode = "historical".

Definition closed (mode : string) : Prop :=
  mode = "market_closed_weekend" \/ mode = "market_closed_now".

Definition closed_reason (mode : string) : string :=
  if (mode =? "market_closed_weekend")%string then "Weekend - Market Closed"
  else "Outside Trading Hours".

(** [|o - e| <= 0.01] and [|o - e| > 0.01] in binary64 arithmetic. *)
Definition within_tolerance (o e : float) : bool :=
  fle (fabs (fsub o e)) TAQ_Checker_ShenzhenReal.tolerance.

Definition beyond_tolerance (o e : float) : bool :=
  flt TAQ_Checker_ShenzhenReal.tolerance (fabs (fsub o e)).

(** The GET that the orchestrator issues in a tradeable mode, with its
    decoded result. *)
Definition fetch (net : TAQ_Checker_ShenzhenReal.network)
    (mode symbol date_str : string)
    : list TAQ_Checker_ShenzhenReal.request
      * option TAQ_Checker_ShenzhenReal.stock_data :=
  if (mode =? "current")%string
  then TAQ_Checker_ShenzhenReal.fetch_current_data net symbol
  else TAQ_Checker_ShenzhenReal.fetch_historical_data net symbol date_str.

(** Positions of the numeric fields of the delimited record. *)
Definition float_positions : list nat :=
  [3; 4; 5; 9; 19; 31; 32; 33; 34; 37]%nat.
Definition int_positions : list nat := [6; 10; 20]%nat.

(** The field at a position, empty when the record is shorter. *)
Definition field (data_parts : list string) (i : nat) : string :=
  nth i data_parts "".

(** Reading of a numeric field: the empty field is zero, any other text
    goes through [float()] or [int()]. *)
Definition float_cell (x : string) : py float :=
  if is_empty x then Ok fzero else float_of_string x.

Definition int_cell (x : string) : py Z :=
  if is_empty x then Ok 0 else int_of_string x.

(** The entry of the decoded record that a position feeds. *)
Definition float_field (r : SZSEDataFetcher.stock_data) (i : nat)
    : option float :=
  match i with
  | 3%nat => Some (SZSEDataFetcher.current_price r)
  | 4%nat => Some (SZSEDataFetcher.yesterday_close r)
  | 5%nat => Some (SZSEDataFetcher.open r)
  | 9%nat => Some (SZSEDataFetcher.bid1_price r)
  | 19%nat => Some (SZSEDataFetcher.ask1_price r)
  | 31%nat => Some (SZSEDataFetcher.change r)
  | 32%nat => Some (SZSEDataFetcher.change_percent r)
  | 33%nat => Some (SZSEDataFetcher.high r)
  | 34%nat => Some (SZSEDataFetcher.low r)
  | 37%nat => Some (SZSEDataFetcher.turnover r)
  | _ => None
  end.

Definition int_field (r : SZSEDataFetcher.stock_data) (i : nat) : option Z :=
  match i with
  | 6%nat => Some (SZSEDataFetcher.volume r)
  | 10%nat => Some (SZSEDataFetcher.bid1_volume r)
  | 20%nat => Some (SZSEDataFetcher.ask1_volume r)
  | _ => None
  end.

(** The response of the feed has a payload: it is not empty, does not
    carry the no-match marker, and its first quoted segment is [payload]. *)
Definition has_payload (text payload : string) : Prop :=
  is_empty (strip text) || contains "pv_none_match" (strip text) = false
  /\ search_quoted (strip text) = Some payload.

(** A value that field extraction passes over: null or a blank string. *)
Definition blank (v : json) : bool :=
  match v with
  | JNull => true
  | JStr s => is_empty (strip s)
  | _ => false
  end.

(** Ordered fallback: the value of the first key of [keys] that is present
    in the record and not blank. *)
Fixpoint first_present (keys : list string) (d : list (string * json))
    : option json :=
  match keys with
  | [] => None
  | key :: rest =>
      match lookup key d with
      | Some v => if blank v then first_present rest d else Some v
      | None => first_present rest d
      end
  end.

(** The quote that the historical decoder extracts from one record. *)
Definition historical_quote (symbol : string) (d : list (string * json))
    : TAQ_Checker_ShenzhenReal.stock_data :=
  {| TAQ_Checker_ShenzhenReal.symbol := symbol;
     TAQ_Checker_ShenzhenReal.name :=
       match first_present TAQ_Checker_ShenzhenReal.name_fields d with
       | Some v => v
       | None => JStr "N/A"
       end;
     TAQ_Checker_ShenzhenReal.open :=
       match first_present TAQ_Checker_ShenzhenReal.open_fields d with
       | Some v => TAQ_Checker_ShenzhenReal.safe_float_conversion v fzero
       | None => fzero
       end;
     TAQ_Checker_ShenzhenReal.data_type := "historical";
     TAQ_Checker_ShenzhenReal.expected_open := None;
     TAQ_Checker_ShenzhenReal.match_status := None;
     TAQ_Checker_ShenzhenReal.market_status := None |}.


(** The GET of the current endpoint for a symbol. *)
Definition current_request (symbol : string)
    : TAQ_Checker_ShenzhenReal.request :=
  {| TAQ_Checker_ShenzhenReal.url := TAQ_Checker_ShenzhenReal.current_url;
     TAQ_Checker_ShenzhenReal.params :=
       [("random", "0.123456"); ("marketId", "1");
        ("code", zfill symbol 6); ("language", "EN")] |}.

(** The GET of the historical endpoint for a symbol and a date. *)
Definition historical_request (symbol date_str : string)
    : TAQ_Checker_ShenzhenReal.request :=
  {| TAQ_Checker_ShenzhenReal.url := TAQ_Checker_ShenzhenReal.historical_url;
     TAQ_Checker_ShenzhenReal.params :=
       [("SHOWTYPE", "JSON"); ("CATALOGID", "1394_stock_snapshot");
        ("TABKEY", "tab1"); ("txtDMorJC", zfill symbol 6);
        ("txtDate", date_str); ("archiveDate", date_str);
        ("random", "0.123456")] |}.

(** The requests that a mode calls for. *)
Definition requests_of (mode symbol date_str : string)
    : list TAQ_Checker_ShenzhenReal.request :=
  if (mode =? "current")%string then [current_request symbol]
  else if (mode =? "historical")%string
  then [historical_request symbol date_str]
  else [].

(** A response that carries no JSON value. *)
Definition failed (resp : TAQ_Checker_ShenzhenReal.response) : Prop :=
  match resp with
  | TAQ_Checker_ShenzhenReal.Body _ => False
  | _ => True
  end.

(** A JSON object, as opposed to an array or a scalar. *)
Definition is_object (v : json) : bool :=
  match v with
  | JObj _ => true
  | _ => false
  end.

(** [l1] is [l2] with some elements left out, order kept. *)
Inductive subseq {A : Type} : list A -> list A -> Prop :=
| subseq_nil : subseq [] []
| subseq_skip (x : A) (l1 l2 : list A) : subseq l1 l2 -> subseq l1 (x :: l2)
| subseq_take (x : A) (l1 l2 : list A) :
    subseq l1 l2 -> subseq (x :: l1) (x :: l2).


Definition answered (r : TAQ_Checker_ShenzhenReal.stock_data)
    : string * option float :=
  (TAQ_Checker_ShenzhenReal.symbol r,
   TAQ_Checker_ShenzhenReal.expected_open r).

(** The row that a closed market gives for a batch entry. *)
Definition weekend_row (info : TAQ_Checker_ShenzhenReal.symbol_info)
    : TAQ_Checker_ShenzhenReal.stock_data :=
  TAQ_Checker_ShenzhenReal.create_market_closed_result
    (TAQ_Checker_ShenzhenReal.info_symbol info)
    (TAQ_Checker_ShenzhenReal.info_expected_open info)
    "Weekend - Market Closed".

(** A batch entry as the prompt accepts it: a symbol of six characters
    that [str.isdigit] accepts, with an expected price. *)
Definition well_formed_entry (info : TAQ_Checker_ShenzhenReal.symbol_info)
    : Prop :=
  TAQ_Checker_ShenzhenReal.isdigit
    (TAQ_Checker_ShenzhenReal.info_symbol info) = true
  /\ String.length (TAQ_Checker_ShenzhenReal.info_symbol info) = 6%nat
  /\ exists p, TAQ_Checker_ShenzhenReal.info_expected_open info = Some p.



(** The expected data that the second client ends up with for a symbol:
    the entry of the table passed to the batch if that table is not empty
    and has the symbol, else the entry of the fetcher's own table, else the
    placeholder. *)
Definition effective_expected (self_prices : list (string * SZSEDataFetcher.expected))
    (expected_prices : option (list (string * SZSEDataFetcher.expected)))
    (symbol : string) : SZSEDataFetcher.expected :=
  match
    match expected_prices with
    | Some table => Real_Time_ShenZhen2.dict_lookup table symbol
    | None => None
    end
  with
  | Some e => e
  | None =>
      match Real_Time_ShenZhen2.dict_lookup self_prices symbol with
      | Some e => e
      | None => {| SZSEDataFetcher.sid := "SID_" ++ symbol;
                   SZSEDataFetcher.equ_open := None |}
      end
  end.

(** The verdict of the real-time clients for an open price. *)
Definition realtime_verdict (o : float) (expected : option float) : string :=
  match expected with
  | Some e => if within_tolerance o e then "MATCHED!" else "NOT MATCHED!"
  | None => "NO EXPECTED PRICE"
  end.

End Spec.

(* ================================================================== *)
(** * Concrete inputs used in examples                                  *)
(* ================================================================== *)

Module Examples.
Import Py.

(** Tuesday 2026-11-03, 10:00 at UTC+8. *)
Definition clock_tue_1000 : TAQ_Checker_ShenzhenReal.clock :=
  TAQ_Checker_ShenzhenReal.mkclock (mkdate 2026 11 3)
    (Some (mkdatetime (mkdate 2026 11 3) (mktime 10 0 0 0))).

(** A price as the caller reads it with [float()]. *)
Definition price (s : string) : float :=
  match float_of_string s with
  | Ok x => x
  | Raise _ => S754_nan
  end.

(** The array response: a metadata wrapper, then a stock record. *)
Definition vanke_body : json :=
  JArr [JObj [("metadata", JObj [])];
        JObj [("zqjc", JStr "Vanke"); ("ks", JStr "8.50")]].

(** The object response with a thousands separator in the price. *)
Definition ping_an_body : json :=
  JObj [("result", JObj [("name", JStr "Ping An");
                         ("openPrice", JStr "1,650.00")])].

(** A stock record that also has a [data] field of its own. *)
Definition nested_record : list (string * json) :=
  [("zqjc", JStr "Vanke"); ("ks", JStr "8.50");
   ("data", JArr [JObj [("zqjc", JStr "Other"); ("ks", JStr "1.00")]])].

Definition nested_body : json :=
  JArr [JObj [("metadata", JObj [])]; JObj nested_record].

(** A response of the real-time feed: one quoted, tilde-separated
    record. *)
Definition feed_text (fields : list string) : string :=
  "v_sz000001=" ++ String dquote (String.concat "~" fields)
  ++ String dquote ";".

Definition ping_an_fields : list string :=
  ["51"; "PingAn"; "000001"; "8.52"; "8.49"; "8.50"; "1234"; "600"; "634";
   "8.51"; "10"; "8.50"; "20"; "8.49"; "30"; "8.48"; "40"; "8.47"; "50";
   "8.52"; "11"; "8.53"; "21"; "8.54"; "31"; "8.55"; "41"; "8.56"; "51";
   ""; "20240105150003"; "0.03"; "0.35"; "8.60"; "8.40";
   "8.52/1234/1000"; "1234"; "1051"; "0.06"].

(** The same record with a current price that is no number. *)
Definition no_price_fields : list string :=
  firstn 3 ping_an_fields ++ "N/A" :: skipn 4 ping_an_fields.

(** The same record cut after 29 fields. *)
Definition short_fields : list string := firstn 29 ping_an_fields.


End Examples.

(* ================================================================== *)
(** * Properties of the runtime model                                   *)
(* ================================================================== *)

Section RuntimeFacts.
Import Py Spec.

Lemma make_date_raises (y m d : Z) (e : exn) :
  make_date y m d = Raise e -> e = ValueError.
Proof.
  unfold make_date. destruct (valid_date y m d); congruence.
Qed.

(** Parsing a date raises nothing but [ValueError]. *)
Lemma strptime_Ymd_raises (s : string) (e : exn) :
  strptime_Ymd s = Raise e -> e = ValueError.
Proof.
  unfold strptime_Ymd.
  destruct (then_hyphen (match_Y s)) as [[y s1]|]; [|congruence].
  destruct (match_m s1) as [[m s2]|]; [|congruence].
  destruct (match_d s2) as [[d [|c r]]|]; try congruence.
  apply make_date_raises.
Qed.

Lemma weekday_range (d : date) : 0 <= weekday d < 7.
Proof. unfold weekday. apply Z.mod_pos_bound. lia. Qed.

Lemma weekend_test (d : date) : (5 <=? weekday d) = Saturday_or_Sunday d.
Proof.
  unfold Saturday_or_Sunday. pose proof (weekday_range d) as H.
  destruct (5 <=? weekday d) eqn:E5; symmetry.
  - apply Z.leb_le in E5. apply orb_true_iff.
    destruct (Z.eq_dec (weekday d) 5) as [->|N]; [left; reflexivity|].
    right. apply Z.eqb_eq. lia.
  - apply Z.leb_gt in E5. apply orb_false_iff.
    split; apply Z.eqb_neq; lia.
Qed.

(** Comparing times field by field is comparing microseconds since
    midnight. *)
Lemma time_le_micros (a b : time) :
  valid_time a -> valid_time b -> time_le a b = (micros a <=? micros b).
Proof.
  unfold valid_time, time_le, time_compare, micros.
  intros (Ha1 & Ha2 & Ha3 & Ha4) (Hb1 & Hb2 & Hb3 & Hb4).
  destruct (hour a ?= hour b) eqn:Eh;
    [apply Z.compare_eq in Eh
    |rewrite Z.compare_lt_iff in Eh|rewrite Z.compare_gt_iff in Eh];
    [|symmetry; apply Z.leb_le; nia|symmetry; apply Z.leb_gt; nia].
  destruct (minute a ?= minute b) eqn:Em;
    [apply Z.compare_eq in Em
    |rewrite Z.compare_lt_iff in Em|rewrite Z.compare_gt_iff in Em];
    [|symmetry; apply Z.leb_le; nia|symmetry; apply Z.leb_gt; nia].
  destruct (second a ?= second b) eqn:Es;
    [apply Z.compare_eq in Es
    |rewrite Z.compare_lt_iff in Es|rewrite Z.compare_gt_iff in Es];
    [|symmetry; apply Z.leb_le; nia|symmetry; apply Z.leb_gt; nia].
  destruct (microsecond a ?= microsecond b) eqn:Eu;
    [apply Z.compare_eq in Eu
    |rewrite Z.compare_lt_iff in Eu|rewrite Z.compare_gt_iff in Eu];
    symmetry; [apply Z.leb_le|apply Z.leb_le|apply Z.leb_gt]; nia.
Qed.

Lemma SFcompare_Lt_swap (x y : spec_float) :
  SFcompare x y = Some Lt -> SFcompare y x = Some Gt.
Proof.
  destruct x as [sx|sx| |sx mx ex], y as [sy|sy| |sy my ey]; simpl;
    try discriminate;
    try (destruct sx; try destruct sy; simpl; congruence).
  change (Pos.compare_cont Eq mx my) with (Pos.compare mx my).
  change (Pos.compare_cont Eq my mx) with (Pos.compare my mx).
  rewrite (Z.compare_antisym ex ey), (Pos.compare_antisym mx my).
  destruct sx, sy; try congruence;
    destruct (ex ?= ey); simpl; try congruence;
    destruct (mx ?= my)%positive; simpl; congruence.
Qed.

(** [x < y] excludes [y <= x], also for infinities and NaN. *)
Lemma flt_not_fle (x y : float) : flt x y = true -> fle y x = false.
Proof.
  unfold flt, fle, SFltb, SFleb. intros H.
  destruct (SFcompare x y) as [[| |]|] eqn:E; try discriminate.
  now rewrite (SFcompare_Lt_swap _ _ E).
Qed.

End RuntimeFacts.

(* ================================================================== *)
(** * Trading calendar and session resolver                             *)
(* ================================================================== *)

Section SessionResolver.
Import Py Spec Examples TAQ_Checker_ShenzhenReal.

(** The live-session check, read off a clock that could be read. *)
Lemma is_market_open_now_spec (c : clock) (now : datetime) :
  now_beijing c = Some now ->
  valid_time (dt_time now) ->
  is_market_open_now c = true <-> within_trading_session now.
Proof.
  intros Hnow Hv. unfold is_market_open_now, within_trading_session.
  rewrite Hnow.
  assert (V930 : valid_time morning_start) by (cbv; intuition congruence).
  assert (V1130 : valid_time morning_end) by (cbv; intuition congruence).
  assert (V13 : valid_time afternoon_start) by (cbv; intuition congruence).
  assert (V15 : valid_time afternoon_end) by (cbv; intuition congruence).
  rewrite !time_le_micros by assumption.
  change (micros morning_start) with (hm 9 30).
  change (micros morning_end) with (hm 11 30).
  change (micros afternoon_start) with (hm 13 0).
  change (micros afternoon_end) with (hm 15 0).
  destruct (5 <=? weekday (dt_date now)) eqn:Ew.
  - apply Z.leb_le in Ew. split; [discriminate|]. intros [Hlt _]. lia.
  - apply Z.leb_gt in Ew.
    rewrite orb_true_iff, !andb_true_iff, !Z.leb_le. tauto.
Qed.

(** When the UTC+8 clock cannot be read the market counts as open. *)
Lemma is_market_open_now_fail_open (c : clock) :
  now_beijing c = None -> is_market_open_now c = true.
Proof. intros H. unfold is_market_open_now. now rewrite H. Qed.

(** The calendar never raises: a text that is no date is answered with
    [False]. *)
Lemma is_weekend_total (s : string) :
  is_weekend s =
  Ok match strptime_Ymd s with
     | Ok d => Saturday_or_Sunday d
     | Raise _ => false
     end.
Proof.
  unfold is_weekend.
  destruct (strptime_Ymd s) as [d|e] eqn:E; simpl.
  - now rewrite weekend_test.
  - now rewrite (strptime_Ymd_raises s e E).
Qed.

(** The resolver never raises and returns one of its five modes. *)
Lemma get_date_mode_total (c : clock) (target_date : option string) :
  exists mode date_str,
    get_date_mode c target_date = Ok (mode, date_str) /\
    In mode ["invalid"; "market_closed_weekend"; "market_closed_now";
             "current"; "historical"].
Proof.
  unfold get_date_mode. destruct target_date as [s|].
  - destruct (strptime_Ymd s) as [d|e] eqn:E; simpl.
    + destruct (date_gt d (today c)); [simpl; eauto 8|].
      destruct (date_eq d (today c)).
      * destruct (is_market_open_now c); simpl; eauto 10.
      * rewrite is_weekend_total, E. simpl.
        destruct (Saturday_or_Sunday d); simpl; eauto 10.
    + rewrite (strptime_Ymd_raises s e E). simpl. eauto 8.
  - destruct (is_market_open_now c); simpl; eauto 10.
Qed.

(** C1.  For a target date text [d] that parses as a date [dt], the session
    resolver returns the mode invalid when [dt] is after today; the result
    of the live-session check (current when the market is open now,
    market_closed_now otherwise) when [dt] is today; and, when [dt] is before
    today, market_closed_weekend if [dt] is a Saturday or Sunday and
    historical otherwise, each time together with [d].  Without a target
    date it returns the result of the same live-session check with today's
    date.  The live-session check is true exactly when the UTC+8 clock is
    on a weekday within 09:30-11:30 or 13:00-15:00. *)
Theorem get_date_mode_resolves (c : clock) (d : string) (dt : date) :
  strptime_Ymd d = Ok dt ->
  get_date_mode c (Some d) =
    Ok (match date_compare dt (today c) with
        | Gt => "invalid"
        | Eq => live_mode (is_market_open_now c)
        | Lt => if Saturday_or_Sunday dt then "market_closed_weekend"
                else "historical"
        end, d)
  /\ get_date_mode c None =
       Ok (live_mode (is_market_open_now c), strftime_Ymd (today c))
  /\ (forall now, now_beijing c = Some now -> valid_time (dt_time now) ->
        (is_market_open_now c = true <-> within_trading_session now)).
Proof.
  intros Hparse. split; [|split].
  - unfold get_date_mode. rewrite Hparse. simpl.
    unfold date_gt, date_eq.
    destruct (date_compare dt (today c)).
    + destruct (is_market_open_now c); reflexivity.
    + rewrite is_weekend_total, Hparse. simpl.
      destruct (Saturday_or_Sunday dt); reflexivity.
    + reflexivity.
  - unfold get_date_mode.
    destruct (is_market_open_now c); reflexivity.
  - intros now Hnow Hv. now apply is_market_open_now_spec.
Qed.

(** A weekday in the past, seen on Tuesday 2026-11-03 at 10:00. *)
Lemma get_date_mode_resolves_witness :
  get_date_mode clock_tue_1000 (Some "2026-10-30")
    = Ok ("historical", "2026-10-30")
  /\ get_date_mode clock_tue_1000 (Some "2026-11-01")
    = Ok ("market_closed_weekend", "2026-11-01")
  /\ get_date_mode clock_tue_1000 None = Ok ("current", "2026-11-03").
Proof.
  split; [|split].
  - exact (proj1 (get_date_mode_resolves clock_tue_1000 "2026-10-30"
                    (mkdate 2026 10 30) eq_refl)).
  - exact (proj1 (get_date_mode_resolves clock_tue_1000 "2026-11-01"
                    (mkdate 2026 11 1) eq_refl)).
  - exact (proj1 (proj2 (get_date_mode_resolves clock_tue_1000 "2026-10-30"
                           (mkdate 2026 10 30) eq_refl))).
Defined.

(** C6, as the code has it.  [is_weekend] raises for no input: on a text that
    does not parse as YYYY-MM-DD it returns [False], and on a text that
    parses it returns [True] exactly when the weekday is Saturday or
    Sunday. *)
Theorem is_weekend_never_raises (s : string) :
  is_weekend s =
  Ok match strptime_Ymd s with
     | Ok d => Saturday_or_Sunday d
     | Raise _ => false
     end.
Proof. apply is_weekend_total. Qed.

(** C6 fails as stated: month 13 does not parse, and [is_weekend] answers
    [False] instead of raising. *)
Lemma is_weekend_unparseable_counterexample :
  strptime_Ymd "2024-13-01" = Raise ValueError
  /\ is_weekend "2024-13-01" = Ok false
  /\ ~ (exists e, is_weekend "2024-13-01" = Raise e).
Proof.
  split; [reflexivity|]. split; [reflexivity|].
  intros [e H]. discriminate H.
Qed.

(** C7, as the code has it.  For a target date text that does not parse as
    YYYY-MM-DD the resolver raises nothing: it returns the mode invalid
    with the text, the mode it also returns for dates after today. *)
Theorem get_date_mode_malformed (c : clock) (s : string) (e : exn) :
  strptime_Ymd s = Raise e ->
  get_date_mode c (Some s) = Ok ("invalid", s).
Proof.
  intros H. unfold get_date_mode. rewrite H.
  rewrite (strptime_Ymd_raises s e H). reflexivity.
Qed.

Lemma get_date_mode_malformed_witness :
  strptime_Ymd "03/11/2026" = Raise ValueError
  /\ get_date_mode clock_tue_1000 (Some "03/11/2026")
     = Ok ("invalid", "03/11/2026").
Proof.
  split; [reflexivity|].
  exact (get_date_mode_malformed clock_tue_1000 "03/11/2026" ValueError
           eq_refl).
Defined.

(** C7 fails as stated: the malformed text is answered with the same mode
    as a date after today, and no error is raised. *)
Lemma get_date_mode_malformed_counterexample :
  strptime_Ymd "03/11/2026" = Raise ValueError
  /\ get_date_mode clock_tue_1000 (Some "03/11/2026")
     = Ok ("invalid", "03/11/2026")
  /\ get_date_mode clock_tue_1000 (Some "2026-11-04")
     = Ok ("invalid", "2026-11-04")
  /\ ~ (exists e, get_date_mode clock_tue_1000 (Some "03/11/2026") = Raise e).
Proof.
  repeat (split; [reflexivity|]).
  intros [e H]. discriminate H.
Qed.

End SessionResolver.

(* ================================================================== *)
(** * Orchestration and reconciliation                                  *)
(* ================================================================== *)

Section Orchestrator.
Import Py Spec Examples TAQ_Checker_ShenzhenReal.

(** The orchestrator in a tradeable mode: one fetch, then the verdict. *)
Lemma get_stock_data_tradeable (c : clock) (net : network) (symbol : string)
    (expected_open : option float) (target_date : option string)
    (mode date_str : string) :
  get_date_mode c target_date = Ok (mode, date_str) ->
  tradeable mode ->
  get_stock_data c net symbol expected_open target_date =
  Ok (fst (fetch net mode symbol date_str),
      match snd (fetch net mode symbol date_str) with
      | None => None
      | Some q =>
          Some (with_match q expected_open
                  match expected_open with
                  | Some e => if within_tolerance (open q) e
                              then "MATCHED" else "NOT MATCHED"
                  | None => "NO EXPECTED PRICE"
                  end)
      end).
Proof.
  intros Hmode Htr. unfold get_stock_data, fetch. rewrite Hmode.
  cbn [bind].
  destruct Htr as [-> | ->]; cbn [String.eqb Ascii.eqb Bool.eqb].
  - destruct (fetch_current_data net symbol) as [sent [q|]]; reflexivity.
  - destruct (fetch_historical_data net symbol date_str) as [sent [q|]];
      reflexivity.
Qed.

Lemma get_stock_data_closed (c : clock) (net : network) (symbol : string)
    (expected_open : option float) (target_date : option string)
    (mode date_str : string) :
  get_date_mode c target_date = Ok (mode, date_str) ->
  closed mode ->
  get_stock_data c net symbol expected_open target_date =
  Ok ([], Some (create_market_closed_result symbol expected_open
                  (closed_reason mode))).
Proof.
  intros Hmode Hcl. unfold get_stock_data. rewrite Hmode. cbn [bind].
  destruct Hcl as [-> | ->]; reflexivity.
Qed.

Lemma get_stock_data_invalid (c : clock) (net : network) (symbol : string)
    (expected_open : option float) (target_date : option string)
    (date_str : string) :
  get_date_mode c target_date = Ok ("invalid", date_str) ->
  get_stock_data c net symbol expected_open target_date = Ok ([], None).
Proof.
  intros Hmode. unfold get_stock_data. rewrite Hmode. reflexivity.
Qed.

(** C2.  Whatever the symbol, the expected price and the network, when the
    resolved mode is market_closed_weekend or market_closed_now the
    orchestrator issues no request and returns a result whose verdict is
    MARKET CLOSED, whose name and open price are the placeholders N/A and
    0.0, and whose market status gives the reason; and a result with the
    verdict MARKET CLOSED is returned in these two modes only. *)
Theorem get_stock_data_market_closed (c : clock) (net : network)
    (symbol : string) (expected_open : option float)
    (target_date : option string) :
  exists mode date_str,
    get_date_mode c target_date = Ok (mode, date_str)
    /\ (closed mode ->
        get_stock_data c net symbol expected_open target_date =
        Ok ([], Some {| symbol := symbol;
                        name := JStr "N/A";
                        open := fzero;
                        data_type := closed_reason mode;
                        expected_open := expected_open;
                        match_status := Some "MARKET CLOSED";
                        market_status := Some (closed_reason mode) |}))
    /\ (forall sent r,
          get_stock_data c net symbol expected_open target_date
            = Ok (sent, Some r) ->
          match_status r = Some "MARKET CLOSED" -> closed mode).
Proof.
  destruct (get_date_mode_total c target_date)
    as (mode & date_str & Hmode & Hin).
  exists mode, date_str. split; [exact Hmode|]. split.
  - intros Hcl. now rewrite (get_stock_data_closed _ _ _ _ _ _ _ Hmode Hcl).
  - intros sent r Hres Hst.
    simpl in Hin.
    destruct Hin as [<-|[<-|[<-|[<-|[<-|[]]]]]].
    + rewrite (get_stock_data_invalid _ _ _ _ _ _ Hmode) in Hres.
      discriminate Hres.
    + left; reflexivity.
    + right; reflexivity.
    + rewrite (get_stock_data_tradeable _ _ _ _ _ _ _ Hmode
                 (or_introl eq_refl)) in Hres.
      destruct (snd (fetch net "current" symbol date_str)) as [q|];
        [|discriminate Hres].
      injection Hres as _ <-. simpl in Hst.
      destruct expected_open as [e|];
        [destruct (within_tolerance (open q) e)|]; discriminate Hst.
    + rewrite (get_stock_data_tradeable _ _ _ _ _ _ _ Hmode
                 (or_intror eq_refl)) in Hres.
      destruct (snd (fetch net "historical" symbol date_str)) as [q|];
        [|discriminate Hres].
      injection Hres as _ <-. simpl in Hst.
      destruct expected_open as [e|];
        [destruct (within_tolerance (open q) e)|]; discriminate Hst.
Qed.

(** The verdict of the real-time client, read off a decoded record. *)
Lemma get_realtime_data_verdict (http : string -> option string)
    (now : string) (dflt : string -> SZSEDataFetcher.expected)
    (sym : string) (exp : option SZSEDataFetcher.expected)
    (r : SZSEDataFetcher.stock_data) :
  SZSEDataFetcher.get_realtime_data http now dflt sym exp = Some r ->
  SZSEDataFetcher.match_status r =
  match SZSEDataFetcher.open_equ_prices r with
  | Some e => if within_tolerance (SZSEDataFetcher.open r) e
              then "MATCHED!" else "NOT MATCHED!"
  | None => "NO EXPECTED PRICE"
  end.
Proof.
  unfold SZSEDataFetcher.get_realtime_data. intros H.
  destruct (http _) as [text|]; [|discriminate H].
  destruct (is_empty _ || contains _ _); [discriminate H|].
  destruct (search_quoted _) as [payload|]; [|discriminate H].
  destruct (_ <? 30)%nat; [discriminate H|].
  repeat match type of H with
         | context [bind ?m _] =>
             destruct m; cbn [bind except_Exception] in H;
             [|discriminate H]
         end.
  cbn [except_Exception] in H. injection H as <-. reflexivity.
Qed.




(** The structured decoder's default for a missing open price. *)
Lemma parse_current_data_default_open (d : list (string * json))
    (symbol : string) :
  lookup "open" d = None -> lookup "openPrice" d = None ->
  option_map open (parse_current_data (JObj d) symbol) = Some fzero.
Proof.
  intros H1 H2. unfold parse_current_data, dict_get. rewrite H1, H2.
  reflexivity.
Qed.

(** C10.  Reconciliation treats the open price 0 of the structured decoder
    as any other price: for a decoded quote whose open price is 0 and an
    expected price [e] with [|0 - e| > 0.01], the verdict is
    NOT MATCHED. *)
Theorem zero_open_is_reconciled (c : clock) (net : network)
    (symbol : string) (e : float) (target_date : option string)
    (mode date_str : string) (sent : list request) (q : stock_data) :
  get_date_mode c target_date = Ok (mode, date_str) ->
  tradeable mode ->
  fetch net mode symbol date_str = (sent, Some q) ->
  open q = fzero ->
  beyond_tolerance fzero e = true ->
  exists r,
    get_stock_data c net symbol (Some e) target_date = Ok (sent, Some r)
    /\ open r = fzero
    /\ match_status r = Some "NOT MATCHED".
Proof.
  intros Hmode Htr Hfetch Hzero Hfar.
  rewrite (get_stock_data_tradeable _ _ _ _ _ _ _ Hmode Htr), Hfetch.
  cbn [fst snd]. eexists. split; [reflexivity|].
  cbn [open match_status with_match]. split; [exact Hzero|].
  rewrite Hzero. unfold within_tolerance.
  now rewrite (flt_not_fle _ _ Hfar).
Qed.

(** The Ping An object has no open field that the historical decoder
    knows: its open price defaults to 0, and 1650.00 is not matched. *)
Lemma zero_open_is_reconciled_witness :
  exists r,
    get_stock_data clock_tue_1000 (fun _ => Body ping_an_body) "600519"
      (Some (price "1650.00")) (Some "2026-10-30")
    = Ok (fst (fetch (fun _ => Body ping_an_body) "historical" "600519"
                 "2026-10-30"), Some r)
    /\ open r = fzero
    /\ match_status r = Some "NOT MATCHED".
Proof.
  exact (zero_open_is_reconciled clock_tue_1000 (fun _ => Body ping_an_body)
           "600519" (price "1650.00") (Some "2026-10-30")
           "historical" "2026-10-30" _ _
           eq_refl (or_intror eq_refl) eq_refl eq_refl eq_refl).
Defined.

Lemma get_stock_data_market_closed_witness :
  get_stock_data clock_tue_1000 (fun _ => RequestException) "000001"
    (Some (price "8.50")) (Some "2026-11-01")
  = Ok ([], Some (create_market_closed_result "000001" (Some (price "8.50"))
                    "Weekend - Market Closed")).
Proof.
  destruct (get_stock_data_market_closed clock_tue_1000
              (fun _ => RequestException) "000001" (Some (price "8.50"))
              (Some "2026-11-01"))
    as (mode & date_str & Hmode & Hclosed & _).
  injection Hmode as <- <-.
  exact (Hclosed (or_introl eq_refl)).
Defined.

End Orchestrator.

(* ================================================================== *)
(** * Structured snapshot decoder                                       *)
(* ================================================================== *)

Section StructuredDecoder.
Import Py Spec Examples TAQ_Checker_ShenzhenReal.

(** On a dict, field extraction never raises: it is the ordered fallback. *)
Lemma get_field_value_dict {A : Type} (conv : json -> A)
    (d : list (string * json)) (keys : list string) (default : A) :
  get_field_value conv (JObj d) keys default =
  Ok match first_present keys d with
     | Some v => conv v
     | None => default
     end.
Proof.
  induction keys as [|key rest IH]; [reflexivity|].
  cbn [get_field_value first_present guarded_item bind].
  destruct (lookup key d) as [v|]; [|exact IH].
  destruct v as [|b|n|x|s|items|members]; cbn [is_None blank];
    try reflexivity; try exact IH.
  destruct (is_empty (strip s)); [exact IH|reflexivity].
Qed.

(** A non-empty dict always decodes in historical mode. *)
Lemma parse_historical_data_dict (d : list (string * json))
    (symbol target_date : string) :
  d <> [] ->
  parse_historical_data (JObj d) symbol target_date
  = Some (historical_quote symbol d).
Proof.
  intros Hd. unfold parse_historical_data.
  assert (Ht : truthy (JObj d) = true) by (destruct d; [congruence|reflexivity]).
  rewrite Ht. cbn [negb].
  rewrite !get_field_value_dict. reflexivity.
Qed.

Lemma has_key_nonempty (key : string) (d : list (string * json)) :
  has_key key d = true -> d <> [].
Proof. destruct d; [discriminate|congruence]. Qed.

Lemma existsb_has_key_nonempty (keys : list string)
    (d : list (string * json)) :
  existsb (fun key => has_key key d) keys = true -> d <> [].
Proof.
  intros H. apply existsb_exists in H. destruct H as (key & _ & Hk).
  exact (has_key_nonempty key d Hk).
Qed.

(** The first loop stops at a stock record that follows a metadata
    wrapper. *)
Lemma scan_elements_after_metadata (meta e : list (string * json))
    (rest : list json) :
  has_key "metadata" meta = true ->
  has_key "metadata" e = false ->
  has_key "data" e = false ->
  existsb (fun key => has_key key e) stock_keys = true ->
  scan_elements (JObj meta :: JObj e :: rest) = JObj e.
Proof.
  intros Hm He Hd Hs. cbn [scan_elements]. rewrite Hm, He, Hd, Hs.
  cbn [orb]. unfold dict_get.
  unfold has_key in Hd. destruct (lookup "data" e); [discriminate Hd|].
  destruct (3 <? List.length e)%nat; reflexivity.
Qed.

(** C8, as the code has it.  For an array response whose first element is a
    metadata wrapper (it has a metadata field) and whose second element is
    a dict with neither a metadata nor a data field that carries one of the
    stock-identifying fields, the decoder skips the wrapper, selects the
    second element and extracts name and open price by the ordered
    fallback over the key lists; the array of a metadata wrapper followed
    by the record zqjc = Vanke, ks = 8.50 decodes to the name Vanke and the
    open price 8.50. *)
Theorem fetch_historical_data_skips_metadata (symbol target_date : string)
    (meta e : list (string * json)) (rest : list json) :
  has_key "metadata" meta = true ->
  has_key "metadata" e = false ->
  has_key "data" e = false ->
  existsb (fun key => has_key key e) stock_keys = true ->
  snd (fetch_historical_data
         (fun _ => Body (JArr (JObj meta :: JObj e :: rest)))
         symbol target_date)
  = Some (historical_quote symbol e)
  /\ snd (fetch_historical_data (fun _ => Body vanke_body) symbol target_date)
     = Some {| symbol := symbol;
               name := JStr "Vanke";
               open := price "8.50";
               data_type := "historical";
               expected_open := None;
               match_status := None;
               market_status := None |}.
Proof.
  intros Hm He Hd Hs. split; [|reflexivity].
  unfold fetch_historical_data. cbn [snd]. unfold array_content.
  rewrite (scan_elements_after_metadata meta e rest Hm He Hd Hs).
  cbn [is_None andb].
  pose proof (existsb_has_key_nonempty _ _ Hs) as Hne.
  assert (Ht : truthy (JObj e) = true) by (destruct e; [congruence|reflexivity]).
  rewrite Ht. now apply parse_historical_data_dict.
Qed.

Lemma fetch_historical_data_skips_metadata_witness :
  snd (fetch_historical_data
         (fun _ => Body (JArr [JObj [("metadata", JObj [])];
                               JObj [("stockname", JStr "Ping An");
                                     ("ks", JStr " "); ("kpjg", JStr "1,650.00")];
                               JNull]))
         "600519" "2026-10-30")
  = Some {| symbol := "600519";
            name := JStr "Ping An";
            open := price "1650.00";
            data_type := "historical";
            expected_open := None;
            match_status := None;
            market_status := None |}.
Proof.
  exact (proj1 (fetch_historical_data_skips_metadata "600519" "2026-10-30"
                  [("metadata", JObj [])]
                  [("stockname", JStr "Ping An"); ("ks", JStr " ");
                   ("kpjg", JStr "1,650.00")]
                  [JNull] eq_refl eq_refl eq_refl eq_refl)).
Defined.

(** C8 fails as stated: a second element that carries zqjc directly and
    also has a data field is not selected itself; the decoder takes the
    first record of its data field, and the name is Other, not Vanke. *)
Lemma fetch_historical_data_nested_counterexample :
  has_key "metadata" [("metadata", JObj [])] = true
  /\ existsb (fun key => has_key key nested_record) stock_keys = true
  /\ first_present name_fields nested_record = Some (JStr "Vanke")
  /\ option_map name
       (snd (fetch_historical_data (fun _ => Body nested_body)
               "000002" "2026-10-30"))
     = Some (JStr "Other")
  /\ snd (fetch_historical_data (fun _ => Body nested_body)
            "000002" "2026-10-30")
     <> Some (historical_quote "000002" nested_record).
Proof.
  repeat (split; [reflexivity|]).
  vm_compute. discriminate.
Qed.

(** C4.  In current mode the open price goes through [float()] as it is:
    the text 1,650.00 raises, the blanket handler of parse_current_data
    turns that into no result, and the Ping An object decodes to nothing,
    where the claim expects the open price 1650.00.  The historical
    decoder strips the separator and reads 1650.00 from the same text. *)
Theorem parse_current_data_thousands_separator (symbol : string) :
  float_of_string "1,650.00" = Raise ValueError
  /\ parse_current_data
       (JObj [("name", JStr "Ping An"); ("openPrice", JStr "1,650.00")])
       symbol = None
  /\ snd (fetch_current_data (fun _ => Body ping_an_body) symbol) = None
  /\ option_map open
       (parse_historical_data
          (JObj [("name", JStr "Ping An"); ("open", JStr "1,650.00")])
          symbol "2026-10-30")
     = Some (price "1650.00").
Proof.
  repeat split; reflexivity.
Qed.

End StructuredDecoder.

(* ================================================================== *)
(** * Delimited snapshot decoder                                        *)
(* ================================================================== *)

Section DelimitedDecoder.
Import Py Spec Examples SZSEDataFetcher.

Variable http : string -> option string.
Variable now : string.
Variable default_expected : string -> expected.

Lemma getitem_field (data_parts : list string) (i : nat) :
  (i < List.length data_parts)%nat ->
  getitem data_parts i = Ok (field data_parts i).
Proof.
  intros H. unfold getitem, field.
  now rewrite (nth_error_nth' data_parts "" H).
Qed.

Lemma float_at_cell (data_parts : list string) (i : nat) :
  (i < List.length data_parts)%nat ->
  float_at data_parts i = float_cell (field data_parts i).
Proof.
  intros H. unfold float_at, float_cell.
  rewrite (getitem_field _ _ H). cbn [bind].
  destruct (is_empty (field data_parts i)); reflexivity.
Qed.

Lemma int_at_cell (data_parts : list string) (i : nat) :
  (i < List.length data_parts)%nat ->
  int_at data_parts i = int_cell (field data_parts i).
Proof.
  intros H. unfold int_at, int_cell.
  rewrite (getitem_field _ _ H). cbn [bind].
  destruct (is_empty (field data_parts i)); reflexivity.
Qed.

Lemma float_beyond_cell (data_parts : list string) (i : nat) :
  float_beyond data_parts i = float_cell (field data_parts i).
Proof.
  unfold float_beyond.
  destruct (i <? List.length data_parts)%nat eqn:E.
  - apply Nat.ltb_lt in E. now apply float_at_cell.
  - apply Nat.ltb_ge in E. unfold field.
    now rewrite (nth_overflow data_parts "" E).
Qed.

(** A record of fewer than 30 fields is refused before any field is read. *)
Lemma get_realtime_data_short (symbol : string)
    (expected_data : option expected) (text payload : string) :
  http (base_url ++ format_symbol symbol) = Some text ->
  search_quoted (strip text) = Some payload ->
  (List.length (split "~" payload) < 30)%nat ->
  get_realtime_data http now default_expected symbol expected_data = None.
Proof.
  intros Hhttp Hq Hlen. unfold get_realtime_data.
  rewrite Hhttp, Hq.
  apply Nat.ltb_lt in Hlen. rewrite Hlen.
  destruct (is_empty (strip text) || contains "pv_none_match" (strip text));
    reflexivity.
Qed.

Ltac cell_raises H :=
  match goal with
  | E : float_cell (field _ ?i) = Raise _ |- _ =>
      destruct (proj1 H i) as [? ?]; [simpl; tauto | congruence]
  | E : int_cell (field _ ?i) = Raise _ |- _ =>
      destruct (proj2 H i) as [? ?]; [simpl; tauto | congruence]
  end.

(** C5, as the code has it.  For a payload of at least 30 tilde-separated
    fields: a parse failure on any numeric field that is read, the open
    price at position 5 as much as the current price, the previous close,
    the volume, the bid and ask prices and sizes, change, change percent,
    high, low and turnover, makes the decode fail with no result; when
    every numeric field is empty or parses, the decode succeeds and each
    numeric entry is the reading of its field, which is zero for the empty
    field.  The two files differ only in [default_expected]. *)
Theorem numeric_fields_decode (symbol : string)
    (expected_data : option expected) (text payload : string) :
  http (base_url ++ format_symbol symbol) = Some text ->
  has_payload text payload ->
  (30 <= List.length (split "~" payload))%nat ->
  let data_parts := split "~" payload in
  let result :=
    get_realtime_data http now default_expected symbol expected_data in
  ((exists i e, In i float_positions
                /\ float_cell (field data_parts i) = Raise e)
   \/ (exists i e, In i int_positions
                   /\ int_cell (field data_parts i) = Raise e)
   -> result = None)
  /\ ((forall i, In i float_positions ->
         exists x, float_cell (field data_parts i) = Ok x)
      /\ (forall i, In i int_positions ->
            exists n, int_cell (field data_parts i) = Ok n)
      -> exists r,
           result = Some r
           /\ (forall i, In i float_positions ->
                 option_map Ok (float_field r i)
                 = Some (float_cell (field data_parts i)))
           /\ (forall i, In i int_positions ->
                 option_map Ok (int_field r i)
                 = Some (int_cell (field data_parts i))))
  /\ float_cell "" = Ok fzero
  /\ int_cell "" = Ok 0.
Proof.
  intros Hhttp [Hmarker Hq] Hlen data_parts result.
  change (30 <= List.length data_parts)%nat in Hlen.
  assert (Hres : result =
    get_realtime_data http now default_expected symbol expected_data)
    by reflexivity.
  unfold get_realtime_data in Hres.
  rewrite Hhttp, Hmarker, Hq in Hres.
  fold data_parts in Hres.
  assert (Hlt : (List.length data_parts <? 30)%nat = false)
    by (apply Nat.ltb_ge; exact Hlen).
  rewrite Hlt in Hres.
  rewrite !getitem_field in Hres by lia.
  rewrite !float_at_cell in Hres by lia.
  rewrite !int_at_cell in Hres by lia.
  rewrite !float_beyond_cell in Hres.
  cbn [bind] in Hres.
  split; [|split; [|split; reflexivity]].
  - intros Hfail.
    repeat match type of Hres with
           | context [bind ?m _] =>
               destruct m eqn:?; cbn [bind except_Exception] in Hres;
               [|exact Hres]
           end.
    exfalso.
    destruct Hfail as [(i & e & Hin & He)|(i & e & Hin & He)];
      simpl in Hin;
      repeat (destruct Hin as [<-|Hin]; [congruence|]);
      exact Hin.
  - intros Hall.
    repeat match type of Hres with
           | context [bind ?m _] =>
               destruct m eqn:?; cbn [bind except_Exception] in Hres;
               [|cell_raises Hall]
           end.
    eexists. split; [exact Hres|]. split.
    + intros i Hin. simpl in Hin.
      repeat (destruct Hin as [<-|Hin];
              [simpl; congruence|]).
      contradiction.
    + intros i Hin. simpl in Hin.
      repeat (destruct Hin as [<-|Hin];
              [simpl; congruence|]).
      contradiction.
Qed.

End DelimitedDecoder.

Section DelimitedDecoderExamples.
Import Py Spec Examples SZSEDataFetcher.

(** C9.  Whatever the fields hold, a quoted payload that splits into fewer
    than 30 tilde-separated fields makes the delimited decode fail: both
    clients return no result, never a partial record. *)
Theorem short_record_is_rejected (http : string -> option string)
    (now symbol : string) (expected_data : option expected)
    (text payload : string) :
  http (base_url ++ format_symbol symbol) = Some text ->
  search_quoted (strip text) = Some payload ->
  (List.length (split "~" payload) < 30)%nat ->
  Shenzhen_Real_Time_Final.get_realtime_data http now symbol expected_data
    = None
  /\ forall expected_prices,
       Real_Time_ShenZhen2.get_realtime_data expected_prices http now symbol
         expected_data = None.
Proof.
  intros Hhttp Hq Hlen. split; [|intros expected_prices].
  - now apply get_realtime_data_short with (text := text) (payload := payload).
  - now apply get_realtime_data_short with (text := text) (payload := payload).
Qed.

Lemma short_record_is_rejected_witness :
  List.length short_fields = 29%nat
  /\ Shenzhen_Real_Time_Final.get_realtime_data
       (fun _ => Some (feed_text short_fields)) "2026-11-03 10:00:00"
       "000001" None = None.
Proof.
  split; [reflexivity|].
  exact (proj1 (short_record_is_rejected
                  (fun _ => Some (feed_text short_fields))
                  "2026-11-03 10:00:00" "000001" None
                  (feed_text short_fields) (String.concat "~" short_fields)
                  eq_refl eq_refl (proj1 (Nat.ltb_lt 29 30) eq_refl))).
Defined.

(** A current price that is no number is fatal. *)
Lemma numeric_fields_decode_witness :
  Shenzhen_Real_Time_Final.get_realtime_data
    (fun _ => Some (feed_text no_price_fields)) "2026-11-03 10:00:00"
    "000001" None = None.
Proof.
  apply (proj1 (numeric_fields_decode
                  (fun _ => Some (feed_text no_price_fields))
                  "2026-11-03 10:00:00"
                  Shenzhen_Real_Time_Final.default_expected
                  "000001" None (feed_text no_price_fields)
                  (String.concat "~" no_price_fields)
                  eq_refl (conj eq_refl eq_refl)
                  (proj1 (Nat.leb_le 30 39) eq_refl))).
  left. exists 3%nat, ValueError. split; [simpl; tauto|reflexivity].
Defined.

(** C5 fails as stated: in a record of 39 fields whose open price reads
    8.50, a current price that is no number does not decode to zero; the
    whole decode fails. *)
Lemma current_price_failure_counterexample :
  List.length (split "~" (String.concat "~" no_price_fields)) = 39%nat
  /\ field no_price_fields 3 = "N/A"
  /\ float_of_string "N/A" = Raise ValueError
  /\ float_cell (field no_price_fields 5) = Ok (price "8.50")
  /\ Shenzhen_Real_Time_Final.get_realtime_data
       (fun _ => Some (feed_text no_price_fields)) "2026-11-03 10:00:00"
       "000001" None = None
  /\ ~ (exists r,
          Shenzhen_Real_Time_Final.get_realtime_data
            (fun _ => Some (feed_text no_price_fields))
            "2026-11-03 10:00:00" "000001" None = Some r
          /\ current_price r = fzero).
Proof.
  repeat (split; [reflexivity|]).
  intros (r & Hr & _). discriminate Hr.
Qed.

End DelimitedDecoderExamples.

(* ================================================================== *)
(** * Symbols and tickers                                               *)
(* ================================================================== *)

Section SymbolFormatting.
Import Py Spec Examples.

Lemma string_length_append (s t : string) :
  String.length (s ++ t) = (String.length s + String.length t)%nat.
Proof. induction s as [|c s IH]; simpl; [reflexivity|now rewrite IH]. Qed.

Lemma repeat_char_length (c : ascii) (n : nat) :
  String.length (repeat_char c n) = n.
Proof. induction n as [|n IH]; simpl; [reflexivity|now rewrite IH]. Qed.

Lemma zfill_length (s : string) (width : nat) :
  String.length (zfill s width) = Nat.max width (String.length s).
Proof.
  unfold zfill. destruct s as [|c s'].
  - rewrite repeat_char_length. simpl. lia.
  - destruct (Ascii.eqb c "+" || Ascii.eqb c "-"); simpl;
      rewrite string_length_append, repeat_char_length; simpl; lia.
Qed.

Lemma zfill_long (s : string) (width : nat) :
  (width <= String.length s)%nat -> zfill s width = s.
Proof.
  intros H. unfold zfill.
  replace (width - String.length s)%nat with 0%nat by lia.
  destruct s as [|c s']; [reflexivity|].
  destruct (Ascii.eqb c "+" || Ascii.eqb c "-"); reflexivity.
Qed.

(** X1.  [pad_ticker] returns a text of length max(6, length of the symbol):
    a symbol of six characters or more comes back unchanged, a shorter one
    is brought to exactly six, and padding twice is padding once. *)
Theorem pad_ticker_width (symbol : string) :
  String.length (TAQ_Checker_ShenzhenReal.pad_ticker symbol)
    = Nat.max 6 (String.length symbol)
  /\ ((6 <= String.length symbol)%nat ->
      TAQ_Checker_ShenzhenReal.pad_ticker symbol = symbol)
  /\ TAQ_Checker_ShenzhenReal.pad_ticker
       (TAQ_Checker_ShenzhenReal.pad_ticker symbol)
     = TAQ_Checker_ShenzhenReal.pad_ticker symbol.
Proof.
  unfold TAQ_Checker_ShenzhenReal.pad_ticker. split; [|split].
  - apply zfill_length.
  - apply zfill_long.
  - apply zfill_long. rewrite zfill_length. lia.
Qed.

Lemma prefix_cons (a b : ascii) (s1 s2 : string) :
  String.prefix (String a s1) (String b s2)
  = Ascii.eqb a b && String.prefix s1 s2.
Proof.
  cbn [String.prefix]. destruct (ascii_dec a b) as [->|N].
  - now rewrite Ascii.eqb_refl.
  - apply Ascii.eqb_neq in N. now rewrite N.
Qed.

(** X2.  [format_symbol] puts the Shanghai prefix sh before the symbol
    exactly when the symbol starts with 60 or 68, and the Shenzhen prefix
    sz before every other symbol, the empty one included. *)
Theorem format_symbol_exchange (symbol : string) :
  SZSEDataFetcher.format_symbol symbol =
  (if startswith symbol "60" || startswith symbol "68" then "sh" else "sz")
  ++ symbol.
Proof.
  unfold SZSEDataFetcher.format_symbol, startswith.
  destruct symbol as [|c1 s]; [reflexivity|].
  rewrite !prefix_cons.
  destruct (Ascii.eqb_spec "6" c1) as [<-|N6].
  - change (Ascii.eqb "3" "6") with false.
    change (Ascii.eqb "0" "6") with false.
    cbn [andb orb]. destruct (_ || _); reflexivity.
  - cbn [andb orb].
    destruct (_ || _ || _); reflexivity.
Qed.
Lemma pad_ticker_width_witness :
  TAQ_Checker_ShenzhenReal.pad_ticker "300928" = "300928"
  /\ String.length (TAQ_Checker_ShenzhenReal.pad_ticker "928") = 6%nat.
Proof.
  split.
  - exact (proj1 (proj2 (pad_ticker_width "300928")) (le_n 6)).
  - exact (proj1 (pad_ticker_width "928")).
Defined.

End SymbolFormatting.

(* ================================================================== *)
(** * Dates that come back from the resolver                            *)
(* ================================================================== *)

Section DateRoundTrip.
Import Py Spec Examples TAQ_Checker_ShenzhenReal.

Lemma digit_char_spec (z : Z) :
  is_digit (digit_char z) = true /\ digit_value (digit_char z) = z mod 10.
Proof.
  unfold digit_char.
  pose proof (Z.mod_pos_bound z 10 ltac:(lia)) as Hr.
  assert (H : z mod 10 = 0 \/ z mod 10 = 1 \/ z mod 10 = 2 \/ z mod 10 = 3
              \/ z mod 10 = 4 \/ z mod 10 = 5 \/ z mod 10 = 6
              \/ z mod 10 = 7 \/ z mod 10 = 8 \/ z mod 10 = 9) by lia.
  repeat (destruct H as [H|H]; [rewrite H; split; reflexivity|]).
  rewrite H; split; reflexivity.
Qed.

Lemma match_Y_four_digits (y : Z) (rest : string) :
  0 <= y <= 9999 -> match_Y (four_digits y ++ rest) = Some (y, rest).
Proof.
  intros Hy. unfold four_digits, two_digits. cbn [String.append].
  unfold match_Y.
  destruct (digit_char_spec (y / 1000)) as [D1 V1].
  destruct (digit_char_spec (y / 100)) as [D2 V2].
  destruct (digit_char_spec (y / 10)) as [D3 V3].
  destruct (digit_char_spec y) as [D4 V4].
  rewrite D1, D2, D3, D4, V1, V2, V3, V4. cbn [andb].
  f_equal. f_equal. Z.div_mod_to_equations. lia.
Qed.

Ltac by_cases x k n :=
  lazymatch n with
  | O => exfalso; lia
  | S ?n' =>
      destruct (Z.eq_dec x k) as [->|?];
      [reflexivity
      |let k' := eval compute in (k + 1) in by_cases x k' n']
  end.

Lemma match_m_two_digits (m : Z) (rest : string) :
  1 <= m <= 12 ->
  match_m (two_digits m ++ String "-" rest) = Some (m, rest).
Proof. intros Hm. by_cases m 1 12%nat. Qed.

Lemma match_d_two_digits (d : Z) :
  1 <= d <= 31 -> match_d (two_digits d) = Some (d, "").
Proof. intros Hd. by_cases d 1 31%nat. Qed.

Lemma days_in_month_le_31 (y m : Z) : days_in_month y m <= 31.
Proof.
  unfold days_in_month.
  destruct ((m =? 2) && is_leap y); [lia|].
  destruct (Z.to_nat m) as [|[|[|[|[|[|[|[|[|[|[|[|[|[|n]]]]]]]]]]]]]]; simpl; lia.
Qed.

(** Formatting a date and parsing the text gives the date back. *)
Lemma strptime_strftime (t : date) :
  valid_date (year t) (month t) (day t) = true ->
  strptime_Ymd (strftime_Ymd t) = Ok t.
Proof.
  intros Hv. destruct t as [y m d]. cbn [year month day] in *.
  pose proof Hv as Hv'.
  unfold valid_date in Hv'. rewrite !andb_true_iff, !Z.leb_le in Hv'.
  destruct Hv' as (((((Hy1 & Hy2) & Hm1) & Hm2) & Hd1) & Hd2).
  pose proof (days_in_month_le_31 y m) as H31.
  unfold strptime_Ymd, strftime_Ymd. cbn [year month day].
  rewrite match_Y_four_digits by lia.
  cbn [String.append then_hyphen is_char Ascii.eqb Bool.eqb].
  change ("" ++ ?x) with x.
  rewrite match_m_two_digits by lia.
  rewrite match_d_two_digits by lia.
  unfold make_date. now rewrite Hv.
Qed.

(** X3.  Asking for today's date by name is asking for no date: when the
    local date is a valid date of a four-digit year, the text that the
    resolver hands back for no target date parses to today, and the
    resolver answers it with the same mode and the same text. *)
Theorem get_date_mode_of_today (c : clock) :
  valid_date (year (today c)) (month (today c)) (day (today c)) = true ->
  1000 <= year (today c) ->
  get_date_mode c (Some (strftime_Ymd (today c))) = get_date_mode c None.
Proof.
  intros Hv _. unfold get_date_mode.
  rewrite (strptime_strftime _ Hv). cbn [bind except_ValueError].
  unfold date_gt, date_eq, date_compare. rewrite !Z.compare_refl.
  destruct (is_market_open_now c); reflexivity.
Qed.

Lemma get_date_mode_of_today_witness :
  get_date_mode clock_tue_1000 (Some "2026-11-03")
  = get_date_mode clock_tue_1000 None.
Proof.
  exact (get_date_mode_of_today clock_tue_1000 eq_refl
           ltac:(discriminate)).
Defined.
End DateRoundTrip.

(* ================================================================== *)
(** * What the orchestrator asks and answers                            *)
(* ================================================================== *)

Section OrchestratorShape.
Import Py Spec Examples TAQ_Checker_ShenzhenReal.

Lemma parse_current_data_shape (api_data : json) (symbol : string)
    (q : stock_data) :
  parse_current_data api_data symbol = Some q ->
  TAQ_Checker_ShenzhenReal.symbol q = symbol /\ data_type q = "current"
  /\ market_status q = None.
Proof.
  unfold parse_current_data. destruct api_data; try discriminate.
  destruct (py_float _); cbn [bind except_Exception]; [|discriminate].
  intros [= <-]. repeat split.
Qed.

Lemma parse_historical_data_shape (api_data : json) (symbol date_str : string)
    (q : stock_data) :
  parse_historical_data api_data symbol date_str = Some q ->
  TAQ_Checker_ShenzhenReal.symbol q = symbol /\ data_type q = "historical"
  /\ market_status q = None.
Proof.
  unfold parse_historical_data.
  destruct (match api_data with
            | JArr (first :: _) => Some first
            | JArr [] => None
            | JObj _ => Some api_data
            | _ => None
            end) as [data_record|]; [|discriminate].
  destruct (negb (truthy data_record)); [discriminate|].
  destruct (get_field_value (fun v => v) _ _ _);
    cbn [bind except_Exception]; [|discriminate].
  destruct (get_field_value (fun v => safe_float_conversion v fzero) _ _ _);
    cbn [bind except_Exception]; [|discriminate].
  intros [= <-]. repeat split.
Qed.

Lemma fetch_shape (net : network) (mode symbol date_str : string)
    (sent : list request) (q : stock_data) :
  tradeable mode ->
  fetch net mode symbol date_str = (sent, Some q) ->
  TAQ_Checker_ShenzhenReal.symbol q = symbol /\ data_type q = mode
  /\ market_status q = None.
Proof.
  intros [-> | ->]; unfold fetch; cbn [String.eqb Ascii.eqb Bool.eqb].
  - unfold fetch_current_data. intros [= _ H].
    destruct (net _) as [| |data]; try discriminate.
    destruct (truthy _); [|discriminate].
    now apply parse_current_data_shape in H.
  - unfold fetch_historical_data. intros [= _ H].
    destruct (net _) as [| |data]; try discriminate.
    destruct (truthy _); [|discriminate].
    now apply parse_historical_data_shape in H.
Qed.

Lemma fetch_requests (net : network) (mode symbol date_str : string) :
  tradeable mode ->
  fst (fetch net mode symbol date_str) = requests_of mode symbol date_str.
Proof. intros [-> | ->]; reflexivity. Qed.

(** X4.  [get_stock_data] raises for no input, and the requests it issues
    are fixed by the resolved mode: none in the invalid and closed modes;
    in the current mode one GET of the current endpoint with the ticker
    padded to six characters; in the historical mode one GET of the report
    endpoint with the padded ticker and the date as txtDate and
    archiveDate. *)
Theorem get_stock_data_requests (c : clock) (net : network) (symbol : string)
    (expected_open : option float) (target_date : option string) :
  exists mode date_str result,
    get_date_mode c target_date = Ok (mode, date_str)
    /\ get_stock_data c net symbol expected_open target_date
       = Ok (requests_of mode symbol date_str, result).
Proof.
  destruct (get_date_mode_total c target_date)
    as (mode & date_str & Hmode & Hin).
  exists mode, date_str. simpl in Hin.
  destruct Hin as [<-|[<-|[<-|[<-|[<-|[]]]]]].
  - eexists. split; [exact Hmode|].
    now rewrite (get_stock_data_invalid _ _ _ _ _ _ Hmode).
  - eexists. split; [exact Hmode|].
    now rewrite (get_stock_data_closed _ _ _ _ _ _ _ Hmode
                   (or_introl eq_refl)).
  - eexists. split; [exact Hmode|].
    now rewrite (get_stock_data_closed _ _ _ _ _ _ _ Hmode
                   (or_intror eq_refl)).
  - eexists. split; [exact Hmode|].
    rewrite (get_stock_data_tradeable _ _ _ _ _ _ _ Hmode
               (or_introl eq_refl)).
    reflexivity.
  - eexists. split; [exact Hmode|].
    rewrite (get_stock_data_tradeable _ _ _ _ _ _ _ Hmode
               (or_intror eq_refl)).
    reflexivity.
Qed.

(** X5.  For a target date that does not parse, or that parses to a date
    after today, [get_stock_data] issues no request and returns no
    result. *)
Theorem get_stock_data_rejects_date (c : clock) (net : network)
    (symbol : string) (expected_open : option float) (target_date : string) :
  match strptime_Ymd target_date with
  | Ok dt => date_compare dt (today c) = Gt
  | Raise _ => True
  end ->
  get_stock_data c net symbol expected_open (Some target_date)
  = Ok ([], None).
Proof.
  intros H. apply get_stock_data_invalid with (date_str := target_date).
  destruct (strptime_Ymd target_date) as [dt|e] eqn:E.
  - unfold get_date_mode. rewrite E. cbn [bind except_ValueError].
    unfold date_gt. now rewrite H.
  - unfold get_date_mode. rewrite E.
    now rewrite (strptime_Ymd_raises _ _ E).
Qed.

Lemma get_stock_data_rejects_date_witness :
  get_stock_data clock_tue_1000 (fun _ => Body vanke_body) "000002" None
    (Some "2026-11-04") = Ok ([], None)
  /\ get_stock_data clock_tue_1000 (fun _ => Body vanke_body) "000002" None
       (Some "yesterday") = Ok ([], None).
Proof.
  split.
  - exact (get_stock_data_rejects_date clock_tue_1000
             (fun _ => Body vanke_body) "000002" None "2026-11-04" eq_refl).
  - exact (get_stock_data_rejects_date clock_tue_1000
             (fun _ => Body vanke_body) "000002" None "yesterday" I).
Defined.

(** X6.  Every result of [get_stock_data] carries the symbol and the
    expected price it was asked with; its verdict, data type and market
    status form one of eight combinations: MARKET CLOSED with one of the
    two reasons as data type and market status, or MATCHED, NOT MATCHED or
    NO EXPECTED PRICE with the data type current or historical and no
    market status; and NO EXPECTED PRICE is given only when no expected
    price was passed. *)
Theorem get_stock_data_result_shape (c : clock) (net : network)
    (symbol : string) (expected_open : option float)
    (target_date : option string) (sent : list request) (r : stock_data) :
  get_stock_data c net symbol expected_open target_date = Ok (sent, Some r) ->
  TAQ_Checker_ShenzhenReal.symbol r = symbol
  /\ TAQ_Checker_ShenzhenReal.expected_open r = expected_open
  /\ In (match_status r, data_type r, market_status r)
        [(Some "MARKET CLOSED", "Weekend - Market Closed",
          Some "Weekend - Market Closed");
         (Some "MARKET CLOSED", "Outside Trading Hours",
          Some "Outside Trading Hours");
         (Some "MATCHED", "current", None);
         (Some "NOT MATCHED", "current", None);
         (Some "NO EXPECTED PRICE", "current", None);
         (Some "MATCHED", "historical", None);
         (Some "NOT MATCHED", "historical", None);
         (Some "NO EXPECTED PRICE", "historical", None)]
  /\ (match_status r = Some "NO EXPECTED PRICE" -> expected_open = None).
Proof.
  intros Hres.
  destruct (get_date_mode_total c target_date)
    as (mode & date_str & Hmode & Hin).
  simpl in Hin.
  destruct Hin as [<-|[<-|[<-|[<-|[<-|[]]]]]].
  - rewrite (get_stock_data_invalid _ _ _ _ _ _ Hmode) in Hres.
    discriminate Hres.
  - rewrite (get_stock_data_closed _ _ _ _ _ _ _ Hmode (or_introl eq_refl))
      in Hres.
    injection Hres as _ <-. cbn. repeat split; try tauto. discriminate.
  - rewrite (get_stock_data_closed _ _ _ _ _ _ _ Hmode (or_intror eq_refl))
      in Hres.
    injection Hres as _ <-. cbn. repeat split; try tauto. discriminate.
  - rewrite (get_stock_data_tradeable _ _ _ _ _ _ _ Hmode
               (or_introl eq_refl)) in Hres.
    destruct (fetch net "current" symbol date_str) as [sent' [q|]] eqn:Hf;
      cbn [fst snd] in Hres; [|discriminate Hres].
    destruct (fetch_shape _ _ _ _ _ _ (or_introl eq_refl) Hf)
      as (Hs & Hd & Hm).
    injection Hres as _ <-.
    cbn [TAQ_Checker_ShenzhenReal.symbol TAQ_Checker_ShenzhenReal.expected_open
         match_status data_type market_status with_match].
    rewrite Hs, Hd, Hm.
    destruct expected_open as [e|];
      [destruct (within_tolerance (open q) e)|];
      repeat split; simpl; try tauto; discriminate.
  - rewrite (get_stock_data_tradeable _ _ _ _ _ _ _ Hmode
               (or_intror eq_refl)) in Hres.
    destruct (fetch net "historical" symbol date_str) as [sent' [q|]] eqn:Hf;
      cbn [fst snd] in Hres; [|discriminate Hres].
    destruct (fetch_shape _ _ _ _ _ _ (or_intror eq_refl) Hf)
      as (Hs & Hd & Hm).
    injection Hres as _ <-.
    cbn [TAQ_Checker_ShenzhenReal.symbol TAQ_Checker_ShenzhenReal.expected_open
         match_status data_type market_status with_match].
    rewrite Hs, Hd, Hm.
    destruct expected_open as [e|];
      [destruct (within_tolerance (open q) e)|];
      repeat split; simpl; try tauto; discriminate.
Qed.

Lemma get_stock_data_result_shape_witness :
  exists r,
    get_stock_data clock_tue_1000 (fun _ => Body vanke_body) "000002"
      (Some (price "8.50")) (Some "2026-10-30")
    = Ok ([historical_request "000002" "2026-10-30"], Some r)
    /\ TAQ_Checker_ShenzhenReal.symbol r = "000002"
    /\ TAQ_Checker_ShenzhenReal.expected_open r = Some (price "8.50").
Proof.
  eexists. split; [reflexivity|].
  pose proof (get_stock_data_result_shape clock_tue_1000
                (fun _ => Body vanke_body) "000002" (Some (price "8.50"))
                (Some "2026-10-30") _ _ eq_refl) as (Hs & He & _).
  split; [exact Hs|exact He].
Defined.

(** X7.  In a tradeable mode, when the network answers with a transport
    error or with a body that is not JSON, [get_stock_data] returns no
    result after its one request, and raises nothing. *)
Theorem get_stock_data_network_failure (c : clock) (net : network)
    (symbol : string) (expected_open : option float)
    (target_date : option string) (mode date_str : string) :
  get_date_mode c target_date = Ok (mode, date_str) ->
  tradeable mode ->
  (forall req, failed (net req)) ->
  get_stock_data c net symbol expected_open target_date
  = Ok (requests_of mode symbol date_str, None).
Proof.
  intros Hmode Htr Hfail.
  rewrite (get_stock_data_tradeable _ _ _ _ _ _ _ Hmode Htr).
  rewrite (fetch_requests _ _ _ _ Htr).
  destruct Htr as [-> | ->]; unfold fetch;
    cbn [String.eqb Ascii.eqb Bool.eqb snd
         fetch_current_data fetch_historical_data].
  - match goal with |- context [net ?r] =>
      pose proof (Hfail r) as F; destruct (net r) end;
      [reflexivity|reflexivity|destruct F].
  - match goal with |- context [net ?r] =>
      pose proof (Hfail r) as F; destruct (net r) end;
      [reflexivity|reflexivity|destruct F].
Qed.

Lemma get_stock_data_network_failure_witness :
  get_stock_data clock_tue_1000 (fun _ => RequestException) "000002"
    (Some (price "8.50")) (Some "2026-10-30")
  = Ok ([historical_request "000002" "2026-10-30"], None).
Proof.
  exact (get_stock_data_network_failure clock_tue_1000
           (fun _ => RequestException) "000002" (Some (price "8.50"))
           (Some "2026-10-30") "historical" "2026-10-30"
           eq_refl (or_intror eq_refl) (fun _ => I)).
Defined.
End OrchestratorShape.

(* ================================================================== *)
(** * Candidate content of a response                                   *)
(* ================================================================== *)

Section ShapeNormalization.
Import Py Spec Examples TAQ_Checker_ShenzhenReal.

Lemma truthy_not_null (v : json) : truthy v = true -> v <> JNull.
Proof. destruct v; simpl; congruence. Qed.

Lemma lookup_In (k : string) (d : list (string * json)) (v : json) :
  lookup k d = Some v -> In (k, v) d.
Proof.
  induction d as [|[k' v'] d IH]; simpl; [discriminate|].
  destruct (String.eqb_spec k' k) as [->|N].
  - intros [= ->]. now left.
  - intros H. right. now apply IH.
Qed.

Lemma first_container_cases (keys : list string) (d : list (string * json)) :
  first_container keys d = JNull
  \/ (truthy (first_container keys d) = true
      /\ exists k, In k keys /\ In (k, first_container keys d) d).
Proof.
  induction keys as [|key rest IH]; simpl; [now left|].
  destruct (lookup key d) as [v|] eqn:L.
  - destruct (truthy v) eqn:T.
    + right. split; [exact T|]. exists key. split; [now left|].
      now apply lookup_In.
    + destruct IH as [IH|(Ht & k & Hk & Hin)]; [now left|].
      right. split; [exact Ht|]. exists k. split; [now right|exact Hin].
  - destruct IH as [IH|(Ht & k & Hk & Hin)]; [now left|].
    right. split; [exact Ht|]. exists k. split; [now right|exact Hin].
Qed.

Lemma first_container_falsy (keys : list string) (d : list (string * json)) :
  (forall k v, In (k, v) d -> truthy v = false) ->
  first_container keys d = JNull.
Proof.
  intros H. induction keys as [|key rest IH]; simpl; [reflexivity|].
  destruct (lookup key d) as [v|] eqn:L; [|exact IH].
  now rewrite (H key v (lookup_In _ _ _ L)).
Qed.

Lemma first_non_empty_null (d : list (string * json)) :
  first_non_empty d = JNull <->
  (forall k v, In (k, v) d -> truthy v = false).
Proof.
  induction d as [|[k v] d IH]; simpl.
  - split; [intros _ k v []|reflexivity].
  - destruct (truthy v) eqn:T.
    + split.
      * intros ->. discriminate T.
      * intros H. specialize (H k v (or_introl eq_refl)). congruence.
    + rewrite IH. split.
      * intros H k' v' [[= <- <-]|Hin]; [exact T|now apply (H k')].
      * intros H k' v' Hin. apply (H k'). now right.
Qed.

Lemma first_non_empty_member (d : list (string * json)) :
  first_non_empty d <> JNull ->
  truthy (first_non_empty d) = true
  /\ exists k, In (k, first_non_empty d) d.
Proof.
  induction d as [|[k v] d IH]; simpl; [congruence|].
  destruct (truthy v) eqn:T.
  - intros _. split; [exact T|]. exists k. now left.
  - intros H. destruct (IH H) as (Ht & k' & Hin).
    split; [exact Ht|]. exists k'. now right.
Qed.

(** X8.  For an object response the candidate content is missing exactly
    when every value of the object is false in a condition (null, false,
    zero, empty text, empty list or empty dict); otherwise it is a value of
    the object that is true in a condition.  An object with only such
    values makes both fetchers return no result. *)
Theorem dict_content_candidate (d : list (string * json)) :
  (dict_content d = JNull <->
   (forall k v, In (k, v) d -> truthy v = false))
  /\ (dict_content d <> JNull ->
      truthy (dict_content d) = true
      /\ exists k, In (k, dict_content d) d)
  /\ (forall symbol,
        (forall k v, In (k, v) d -> truthy v = false) ->
        fetch_current_data (fun _ => Body (JObj d)) symbol
        = ([current_request symbol], None))
  /\ (forall symbol date_str,
        (forall k v, In (k, v) d -> truthy v = false) ->
        fetch_historical_data (fun _ => Body (JObj d)) symbol date_str
        = ([historical_request symbol date_str], None)).
Proof.
  assert (Hnull : dict_content d = JNull <->
                  (forall k v, In (k, v) d -> truthy v = false)).
  { unfold dict_content.
    destruct (first_container_cases container_keys d)
      as [E|(Ht & k & _ & Hin)].
    - rewrite E. cbn [is_None]. apply first_non_empty_null.
    - pose proof (truthy_not_null _ Ht) as Hn.
      destruct (first_container container_keys d) eqn:E;
        try congruence; cbn [is_None];
        (split; [discriminate|];
         intros H; rewrite (H k _ Hin) in Ht; discriminate Ht). }
  split; [exact Hnull|]. split; [|split].
  - unfold dict_content.
    destruct (first_container_cases container_keys d)
      as [E|(Ht & k & _ & Hin)].
    + rewrite E. cbn [is_None]. apply first_non_empty_member.
    + pose proof (truthy_not_null _ Ht) as Hn.
      destruct (first_container container_keys d) eqn:E;
        try congruence; cbn [is_None]; intros _;
        (split; [exact Ht|exists k; exact Hin]).
  - intros symbol H. unfold fetch_current_data.
    apply Hnull in H. now rewrite H.
  - intros symbol date_str H. unfold fetch_historical_data.
    apply Hnull in H. now rewrite H.
Qed.

Lemma scan_elements_no_object (items : list json) :
  Forall (fun x => is_object x = false) items -> scan_elements items = JNull.
Proof.
  induction 1 as [|x items Hx _ IH]; [reflexivity|].
  destruct x; try discriminate Hx; exact IH.
Qed.

Lemma scan_data_arrays_no_object (items : list json) :
  Forall (fun x => is_object x = false) items ->
  scan_data_arrays items = JNull.
Proof.
  induction 1 as [|x items Hx _ IH]; [reflexivity|].
  destruct x; try discriminate Hx; exact IH.
Qed.

Lemma scan_tail_no_object (items : list json) :
  Forall (fun x => is_object x = false) items -> scan_tail items = JNull.
Proof.
  induction 1 as [|x items Hx _ IH]; [reflexivity|].
  destruct x; try discriminate Hx; exact IH.
Qed.

(** X9.  A historical response that is neither an object nor an array
    with an object among its elements (a scalar, an array of scalars or of
    arrays) gives no result. *)
Theorem fetch_historical_data_needs_object (net : network)
    (symbol date_str : string) (data : json) :
  net (historical_request symbol date_str) = Body data ->
  match data with
  | JObj _ => False
  | JArr items => Forall (fun x => is_object x = false) items
  | _ => True
  end ->
  fetch_historical_data net symbol date_str
  = ([historical_request symbol date_str], None).
Proof.
  intros Hnet Hdata. unfold fetch_historical_data.
  change (net (historical_request symbol date_str) = Body data) in Hnet.
  unfold historical_request, pad_ticker in *. rewrite Hnet.
  destruct data as [| | | | |items|]; try reflexivity; [|destruct Hdata].
  unfold array_content.
  rewrite (scan_elements_no_object _ Hdata). cbn [is_None].
  rewrite (scan_data_arrays_no_object _ Hdata). cbn [is_None andb].
  assert (Ht : scan_tail (tl items) = JNull).
  { apply scan_tail_no_object. destruct Hdata; [constructor|assumption]. }
  rewrite Ht. destruct (1 <? List.length items)%nat; reflexivity.
Qed.

Lemma fetch_historical_data_needs_object_witness :
  fetch_historical_data
    (fun _ => Body (JArr [JStr "no data"; JInt 0; JArr [JObj [("ks", JStr "8.50")]]]))
    "000002" "2026-10-30"
  = ([historical_request "000002" "2026-10-30"], None).
Proof.
  apply (fetch_historical_data_needs_object _ "000002" "2026-10-30"
           (JArr [JStr "no data"; JInt 0; JArr [JObj [("ks", JStr "8.50")]]])
           eq_refl).
  repeat constructor.
Defined.
Lemma dict_content_candidate_witness :
  fetch_current_data
    (fun _ => Body (JObj [("data", JArr []); ("result", JNull);
                          ("message", JStr ""); ("total", JInt 0)]))
    "000001"
  = ([current_request "000001"], None).
Proof.
  apply (proj1 (proj2 (proj2 (dict_content_candidate
                                [("data", JArr []); ("result", JNull);
                                 ("message", JStr ""); ("total", JInt 0)])))).
  intros k v Hin. simpl in Hin.
  repeat (destruct Hin as [[= <- <-]|Hin]; [reflexivity|]).
  contradiction.
Defined.

End ShapeNormalization.

(* ================================================================== *)
(** * Field extraction and the delimited record                         *)
(* ================================================================== *)

Section FieldExtraction.
Import Py Spec Examples TAQ_Checker_ShenzhenReal.

Lemma remove_char_idempotent (c : ascii) (s : string) :
  remove_char c (remove_char c s) = remove_char c s.
Proof.
  induction s as [|d s IH]; [reflexivity|].
  cbn [remove_char]. destruct (Ascii.eqb d c) eqn:E; [exact IH|].
  cbn [remove_char]. now rewrite E, IH.
Qed.

(** X10.  Commas never matter to [safe_float_conversion]: a text and the
    same text without its commas convert to the same number, the default
    included. *)
Theorem safe_float_conversion_ignores_commas (s : string) (default : float) :
  safe_float_conversion (JStr s) default
  = safe_float_conversion (JStr (remove_char "," s)) default.
Proof.
  unfold safe_float_conversion.
  destruct ((s =? "") || (s =? "-"))%string eqn:Es.
  - apply orb_true_iff in Es.
    destruct Es as [Es|Es]; apply String.eqb_eq in Es; subst; reflexivity.
  - rewrite remove_char_idempotent.
    destruct ((remove_char "," s =? "") || (remove_char "," s =? "-"))%string
      eqn:Er; [|reflexivity].
    apply orb_true_iff in Er.
    destruct Er as [Er|Er]; apply String.eqb_eq in Er; rewrite Er;
      reflexivity.
Qed.

(** X11.  The historical decoder never fails on a non-empty record,
    whatever its values: the result is the quote of the ordered fallback,
    from the record itself or from the first element of a list, the
    elements after it being ignored; the name is N/A when no name key has
    a value, and the open price is 0 when the text found for it is no
    number. *)
Theorem parse_historical_data_permissive (d : list (string * json))
    (rest : list json) (symbol target_date : string) :
  d <> [] ->
  parse_historical_data (JObj d) symbol target_date
    = Some (historical_quote symbol d)
  /\ parse_historical_data (JArr (JObj d :: rest)) symbol target_date
     = Some (historical_quote symbol d)
  /\ (first_present name_fields d = None ->
      name (historical_quote symbol d) = JStr "N/A")
  /\ (forall s e,
        first_present open_fields d = Some (JStr s) ->
        float_of_string (strip (remove_char "," s)) = Raise e ->
        open (historical_quote symbol d) = fzero).
Proof.
  intros Hd.
  pose proof (parse_historical_data_dict d symbol target_date Hd) as H.
  split; [exact H|]. split; [exact H|]. split.
  - intros Hn. unfold historical_quote. cbn [name]. now rewrite Hn.
  - intros s e Hs He. unfold historical_quote. cbn [open]. rewrite Hs.
    unfold safe_float_conversion. rewrite He.
    destruct ((s =? "") || (s =? "-"))%string; reflexivity.
Qed.

Lemma parse_historical_data_permissive_witness :
  parse_historical_data
    (JArr [JObj [("ks", JStr "suspended"); ("kpjg", JStr "8.50")]; JNull])
    "000002" "2026-10-30"
  = Some {| symbol := "000002";
            name := JStr "N/A";
            open := fzero;
            data_type := "historical";
            expected_open := None;
            match_status := None;
            market_status := None |}.
Proof.
  exact (proj1 (proj2 (parse_historical_data_permissive
                         [("ks", JStr "suspended"); ("kpjg", JStr "8.50")]
                         [JNull] "000002" "2026-10-30"
                         ltac:(discriminate)))).
Defined.
End FieldExtraction.

Section DelimitedRecord.
Import Py Spec Examples SZSEDataFetcher.

(** X12.  A record returned by [get_realtime_data] comes from a response to
    the URL of the formatted symbol whose first quoted segment has at
    least 30 fields; it carries the symbol asked for, fields 1 and 2 as
    name and code, field 30 as timestamp (empty when there are only 30
    fields), the time of the call as last update, a share volume of 100
    times the lot volume, and the sid and expected price of the expected
    data passed, or of the default when none was passed. *)
Theorem get_realtime_data_record (http : string -> option string)
    (now : string) (default_expected : string -> expected)
    (symbol : string) (expected_data : option expected) (r : stock_data) :
  get_realtime_data http now default_expected symbol expected_data = Some r ->
  exists text payload,
    http (base_url ++ format_symbol symbol) = Some text
    /\ has_payload text payload
    /\ (30 <= List.length (split "~" payload))%nat
    /\ SZSEDataFetcher.symbol r = symbol
    /\ name r = field (split "~" payload) 1
    /\ code r = field (split "~" payload) 2
    /\ timestamp r = field (split "~" payload) 30
    /\ last_update r = now
    /\ volume_shares r = volume r * 100
    /\ (stock_sid r, open_equ_prices r)
       = match expected_data with
         | Some e => (sid e, equ_open e)
         | None => (sid (default_expected symbol),
                    equ_open (default_expected symbol))
         end.
Proof.
  unfold get_realtime_data. intros H.
  destruct (http _) as [text|]; [|discriminate H].
  destruct (is_empty _ || contains _ _) eqn:Hmarker; [discriminate H|].
  destruct (search_quoted _) as [payload|] eqn:Hq; [|discriminate H].
  destruct (_ <? 30)%nat eqn:Hlen; [discriminate H|].
  apply Nat.ltb_ge in Hlen.
  exists text, payload.
  split; [reflexivity|]. split; [split; assumption|]. split; [exact Hlen|].
  rewrite !getitem_field in H by lia.
  rewrite !int_at_cell in H by lia.
  cbn [bind] in H.
  repeat match type of H with
         | context [bind ?m _] =>
             destruct m eqn:?; cbn [bind except_Exception] in H;
             [|discriminate H]
         end.
  cbn [except_Exception] in H. injection H as <-.
  cbn [SZSEDataFetcher.symbol name code timestamp last_update volume_shares
       volume stock_sid open_equ_prices].
  repeat (split; [reflexivity|]).
  split.
  - unfold field. destruct (30 <? _)%nat eqn:E; [reflexivity|].
    apply Nat.ltb_ge in E. now rewrite nth_overflow.
  - split; [reflexivity|]. split; [reflexivity|].
    destruct expected_data; reflexivity.
Qed.

Lemma get_realtime_data_record_witness :
  exists r,
    Shenzhen_Real_Time_Final.get_realtime_data
      (fun _ => Some (feed_text ping_an_fields)) "2026-11-03 10:00:00"
      "000001" None = Some r
    /\ SZSEDataFetcher.symbol r = "000001"
    /\ last_update r = "2026-11-03 10:00:00"
    /\ volume_shares r = volume r * 100.
Proof.
  eexists. split; [reflexivity|].
  destruct (get_realtime_data_record
              (fun _ => Some (feed_text ping_an_fields))
              "2026-11-03 10:00:00" Shenzhen_Real_Time_Final.default_expected
              "000001" None _ eq_refl)
    as (text & payload & _ & _ & _ & Hs & _ & _ & _ & Hu & Hv & _).
  split; [exact Hs|]. split; [exact Hu|exact Hv].
Defined.

End DelimitedRecord.

(* ================================================================== *)
(** * Batches and single lookups                                        *)
(* ================================================================== *)

Section Batch.
Import Py Spec Examples TAQ_Checker_ShenzhenReal.

Lemma get_stock_data_cases (c : clock) (net : network) (symbol : string)
    (expected_open : option float) (target_date : option string) :
  exists out,
    get_stock_data c net symbol expected_open target_date = Ok out
    /\ (List.length (fst out) <= 1)%nat
    /\ (forall r, snd out = Some r -> answered r = (symbol, expected_open)).
Proof.
  destruct (get_date_mode_total c target_date)
    as (mode & date_str & Hmode & Hin).
  simpl in Hin.
  assert (Hcases : mode = "invalid" \/ closed mode \/ tradeable mode)
    by (unfold closed, tradeable; intuition (subst; auto)).
  clear Hin. destruct Hcases as [->|[Hc|Ht]].
  - eexists. split; [apply (get_stock_data_invalid _ _ _ _ _ _ Hmode)|].
    split; [simpl; lia|]. intros r [=].
  - eexists. split; [apply (get_stock_data_closed _ _ _ _ _ _ _ Hmode Hc)|].
    split; [simpl; lia|]. intros r [= <-]. reflexivity.
  - eexists. split; [apply (get_stock_data_tradeable _ _ _ _ _ _ _ Hmode Ht)|].
    cbn [fst snd]. rewrite (fetch_requests _ _ _ _ Ht). split.
    + unfold requests_of.
      destruct Ht as [-> | ->]; simpl; lia.
    + intros r Hr.
      destruct (fetch net mode symbol date_str) as [sent [q|]] eqn:Hf;
        cbn [snd] in Hr; [|discriminate Hr].
      injection Hr as <-.
      destruct (fetch_shape _ _ _ _ _ _ Ht Hf) as (Hs & _).
      unfold answered. cbn. now rewrite Hs.
Qed.


(** X14.  Symbols of a batch are handled independently: the batch of two
    lists put together gives the requests and results of the first list
    followed by those of the second, handled from where the first
    ended. *)
Theorem get_multiple_symbols_app (env : nat -> clock * network) (i : nat)
    (first second : list symbol_info) (target_date : option string) :
  get_multiple_symbols_from env i (first ++ second) target_date =
  (a <- get_multiple_symbols_from env i first target_date ;;
   b <- get_multiple_symbols_from env (i + List.length first) second
          target_date ;;
   Ok ((fst a ++ fst b)%list, (snd a ++ snd b)%list)).
Proof.
  revert i. induction first as [|info rest IH]; intros i.
  - cbn [List.app List.length get_multiple_symbols_from bind].
    rewrite Nat.add_0_r.
    destruct (get_multiple_symbols_from env i second target_date)
      as [[sent results]|e]; reflexivity.
  - cbn [List.app List.length get_multiple_symbols_from].
    destruct (get_stock_data _ _ _ _ _) as [[sent1 data]|e];
      cbn [bind]; [|reflexivity].
    rewrite IH. replace (i + S (List.length rest))%nat
      with (S i + List.length rest)%nat by lia.
    destruct (get_multiple_symbols_from env (S i) rest target_date)
      as [[sent2 results2]|e]; cbn [bind]; [|reflexivity].
    destruct (get_multiple_symbols_from env _ second target_date)
      as [[sent3 results3]|e]; cbn [bind fst snd]; [|reflexivity].
    rewrite app_assoc. destruct data; reflexivity.
Qed.

(** X15.  A batch for a target date that is a Saturday or Sunday before
    today, at every reading of the clock, issues no request and returns
    one MARKET CLOSED row per entry, in the order of the batch. *)
Theorem get_multiple_symbols_weekend (env : nat -> clock * network)
    (symbols_data : list symbol_info) (target_date : string) (dt : date) :
  strptime_Ymd target_date = Ok dt ->
  Saturday_or_Sunday dt = true ->
  (forall i, date_compare dt (today (fst (env i))) = Lt) ->
  get_multiple_symbols env symbols_data (Some target_date)
  = Ok ([], map weekend_row symbols_data).
Proof.
  intros Hparse Hwe Hpast. unfold get_multiple_symbols. generalize 0%nat.
  induction symbols_data as [|info rest IH]; intros i; [reflexivity|].
  cbn [get_multiple_symbols_from map].
  assert (Hmode : get_date_mode (fst (env i)) (Some target_date)
                  = Ok ("market_closed_weekend", target_date)).
  { unfold get_date_mode. rewrite Hparse. cbn [bind except_ValueError].
    unfold date_gt, date_eq. rewrite (Hpast i).
    rewrite is_weekend_total, Hparse. cbn [bind]. now rewrite Hwe. }
  rewrite (get_stock_data_closed _ _ _ _ _ _ _ Hmode (or_introl eq_refl)).
  rewrite (IH (S i)). reflexivity.
Qed.

Lemma get_multiple_symbols_weekend_witness :
  get_multiple_symbols (fun _ => (clock_tue_1000, fun _ => RequestException))
    [mksymbol_info "000001" (Some (price "8.50"));
     mksymbol_info "000002" None]
    (Some "2026-11-01")
  = Ok ([], [create_market_closed_result "000001" (Some (price "8.50"))
               "Weekend - Market Closed";
             create_market_closed_result "000002" None
               "Weekend - Market Closed"]).
Proof.
  exact (get_multiple_symbols_weekend
           (fun _ => (clock_tue_1000, fun _ => RequestException))
           [mksymbol_info "000001" (Some (price "8.50"));
            mksymbol_info "000002" None]
           "2026-11-01" (mkdate 2026 11 1) eq_refl eq_refl
           (fun _ => eq_refl)).
Defined.

(** X16.  [quick_lookup] without an expected price never returns a result:
    whenever [get_stock_data] has one, formatting the missing expected
    price for display raises [TypeError].  With an expected price it
    returns what [get_stock_data] returns. *)
Theorem quick_lookup_without_expected_price (c : clock) (net : network)
    (symbol : string) (target_date : option string) :
  (forall sent r,
     quick_lookup c net symbol None target_date <> Ok (sent, Some r))
  /\ (forall sent r,
        get_stock_data c net symbol None target_date = Ok (sent, Some r) ->
        quick_lookup c net symbol None target_date = Raise TypeError)
  /\ (forall e,
        quick_lookup c net symbol (Some e) target_date
        = get_stock_data c net symbol (Some e) target_date).
Proof.
  destruct (get_stock_data_cases c net symbol None target_date)
    as ([sent0 data] & Hout & _ & Hans).
  assert (Hraise : forall sent r,
            get_stock_data c net symbol None target_date = Ok (sent, Some r) ->
            quick_lookup c net symbol None target_date = Raise TypeError).
  { intros sent r H. unfold quick_lookup. rewrite H. cbn [bind snd].
    rewrite Hout in H. injection H as -> ->.
    specialize (Hans r eq_refl). unfold answered in Hans.
    injection Hans as _ He. unfold display_simple_result.
    now rewrite He. }
  split; [|split; [exact Hraise|]].
  - intros sent r H. destruct data as [d|].
    + rewrite (Hraise _ _ Hout) in H. discriminate H.
    + unfold quick_lookup in H. rewrite Hout in H. discriminate H.
  - intros e. unfold quick_lookup.
    destruct (get_stock_data_cases c net symbol (Some e) target_date)
      as ([sent1 data1] & Hout1 & _ & Hans1).
    rewrite Hout1. cbn [bind fst snd].
    destruct data1 as [d|]; [|reflexivity].
    specialize (Hans1 d eq_refl). unfold answered in Hans1.
    injection Hans1 as _ He. unfold display_simple_result.
    now rewrite He.
Qed.

Lemma quick_lookup_without_expected_price_witness :
  get_stock_data clock_tue_1000 (fun _ => Body vanke_body) "000002" None
    (Some "2026-10-30")
  = Ok ([historical_request "000002" "2026-10-30"],
        Some {| symbol := "000002";
                name := JStr "Vanke";
                open := price "8.50";
                data_type := "historical";
                expected_open := None;
                match_status := Some "NO EXPECTED PRICE";
                market_status := None |})
  /\ quick_lookup clock_tue_1000 (fun _ => Body vanke_body) "000002" None
       (Some "2026-10-30") = Raise TypeError.
Proof.
  split; [reflexivity|].
  exact (proj1 (proj2 (quick_lookup_without_expected_price clock_tue_1000
                         (fun _ => Body vanke_body) "000002"
                         (Some "2026-10-30"))) _ _ eq_refl).
Defined.
End Batch.

(* ================================================================== *)
(** * Prompts                                                           *)
(* ================================================================== *)

Section Prompts.
Import Py Spec Examples TAQ_Checker_ShenzhenReal.

Lemma read_date_parses (n : nat) :
  forall lines d unread,
    (List.length lines <= n)%nat ->
    read_date lines = Return (Some d) unread ->
    exists dt, strptime_Ymd d = Ok dt.
Proof.
  induction n as [|n IH]; intros lines d unread Hlen H.
  - destruct lines; [discriminate H|simpl in Hlen; lia].
  - destruct lines as [|line rest]; [discriminate H|].
    cbn [read_date] in H. simpl in Hlen.
    destruct (strptime_Ymd (typed_strip line)) as [dt|e] eqn:E.
    + destruct (5 <=? weekday dt).
      * destruct rest as [|answer rest']; [discriminate H|].
        destruct (negb _).
        -- apply (IH rest' d unread); [simpl in Hlen; lia|exact H].
        -- injection H as <- _. now exists dt.
      * injection H as <- _. now exists dt.
    + apply (IH rest d unread); [lia|exact H].
Qed.

(** X17.  A date that [get_target_date] returns always parses as
    YYYY-MM-DD, so for a date chosen at the prompt the resolver answers
    invalid only when the date is after today. *)
Theorem get_target_date_well_formed (lines unread : list string)
    (d : string) :
  get_target_date lines = Return (Some d) unread ->
  exists dt,
    strptime_Ymd d = Ok dt
    /\ forall c,
         get_date_mode c (Some d) = Ok ("invalid", d) ->
         date_compare dt (today c) = Gt.
Proof.
  unfold get_target_date. intros H.
  destruct lines as [|line rest]; [discriminate H|].
  destruct (typed_strip line =? "2")%string; [|discriminate H].
  destruct (read_date_parses _ rest d unread (le_n _) H) as [dt Hdt].
  exists dt. split; [exact Hdt|].
  intros c. unfold get_date_mode. rewrite Hdt.
  cbn [bind except_ValueError]. unfold date_gt, date_eq.
  destruct (date_compare dt (today c)); [| |reflexivity].
  - destruct (is_market_open_now c); discriminate.
  - rewrite is_weekend_total, Hdt. cbn [bind].
    destruct (Saturday_or_Sunday dt); discriminate.
Qed.

Lemma get_target_date_well_formed_witness :
  get_target_date ["2"; "3 Nov"; " 2026-11-01 "; "no"; "2026-10-30"; "left"]
  = Return (Some "2026-10-30") ["left"]
  /\ exists dt, strptime_Ymd "2026-10-30" = Ok dt.
Proof.
  split; [reflexivity|].
  destruct (get_target_date_well_formed
              ["2"; "3 Nov"; " 2026-11-01 "; "no"; "2026-10-30"; "left"]
              ["left"] "2026-10-30" eq_refl) as (dt & Hdt & _).
  exists dt. exact Hdt.
Defined.

Lemma read_symbols_well_formed (lines : list string) :
  forall state symbols_data result unread,
    Forall well_formed_entry symbols_data ->
    match state with
    | EnterPrice symbol =>
        isdigit symbol = true /\ String.length symbol = 6%nat
    | _ => True
    end ->
    read_symbols state symbols_data lines = Return result unread ->
    Forall well_formed_entry result.
Proof.
  induction lines as [|line rest IH];
    intros state symbols_data result unread Hacc Hst H; [discriminate H|].
  cbn [read_symbols] in H. destruct state as [|symbol|].
  - destruct (is_empty (typed_strip line)); [now injection H as <- _|].
    destruct (isdigit (typed_strip line) && (String.length (typed_strip line) =? 6)%nat)
      eqn:E; cbn [negb] in H.
    + apply andb_true_iff in E. destruct E as [E1 E2].
      apply Nat.eqb_eq in E2.
      apply (IH (EnterPrice (typed_strip line)) _ _ _ Hacc (conj E1 E2) H).
    + apply (IH EnterSymbol _ _ _ Hacc I H).
  - destruct (is_empty (typed_strip line)); [apply (IH (EnterPrice symbol) _ _ _ Hacc Hst H)|].
    destruct (float_of_string (typed_strip line)) as [p|e];
      [|apply (IH (EnterPrice symbol) _ _ _ Hacc Hst H)].
    refine (IH AddAnother _ _ _ _ I H).
    apply Forall_app. split; [exact Hacc|].
    constructor; [|constructor].
    destruct Hst as [Hd Hl]. repeat split; [exact Hd|exact Hl|].
    now exists p.
  - destruct (_ || _); [now injection H as <- _|].
    apply (IH EnterSymbol _ _ _ Hacc I H).
Qed.

(** X18.  Every entry that [get_symbols_with_expected_prices] returns has a
    symbol of exactly six characters, each of them accepted by
    [str.isdigit] (a decimal digit or one of the superscript digits), which
    [pad_ticker] leaves as it is, and an expected price. *)
Theorem get_symbols_with_expected_prices_well_formed
    (lines unread : list string) (symbols_data : list symbol_info) :
  get_symbols_with_expected_prices lines = Return symbols_data unread ->
  Forall (fun info =>
            well_formed_entry info
            /\ pad_ticker (info_symbol info) = info_symbol info)
         symbols_data.
Proof.
  intros H.
  pose proof (read_symbols_well_formed lines EnterSymbol [] symbols_data
                unread (Forall_nil _) I H) as Hwf.
  apply Forall_impl with (2 := Hwf).
  intros info Hinfo. split; [exact Hinfo|].
  destruct Hinfo as (_ & Hlen & _).
  unfold pad_ticker. apply zfill_long. rewrite Hlen. lia.
Qed.

Lemma get_symbols_with_expected_prices_well_formed_witness :
  get_symbols_with_expected_prices
    ["30092"; " 300928 "; ""; "abc"; "34.11"; "y";
     String "160" ("12345" ++ String "178" ""); "8.5"; "N"]
  = Return [mksymbol_info "300928" (Some (price "34.11"));
            mksymbol_info ("12345" ++ String "178" "") (Some (price "8.5"))]
           []
  /\ pad_ticker "300928" = "300928"
  /\ pad_ticker ("12345" ++ String "178" "") = "12345" ++ String "178" "".
Proof.
  split; [reflexivity|].
  pose proof (get_symbols_with_expected_prices_well_formed
                ["30092"; " 300928 "; ""; "abc"; "34.11"; "y";
                 String "160" ("12345" ++ String "178" ""); "8.5"; "N"]
                [] _ eq_refl) as H.
  inversion H as [|x l [_ Hpad] Hrest].
  inversion Hrest as [|x' l' [_ Hpad'] _].
  split; [exact Hpad|exact Hpad'].
Defined.
End Prompts.

(* ================================================================== *)
(** * The real-time clients: batches and expected prices                *)
(* ================================================================== *)

Section RealtimeBatch.
Import Py Spec Examples SZSEDataFetcher.

Lemma get_realtime_data_answer (http : string -> option string)
    (now : string) (default_expected : string -> expected)
    (symbol : string) (expected_data : option expected) (r : stock_data) :
  get_realtime_data http now default_expected symbol expected_data = Some r ->
  SZSEDataFetcher.symbol r = symbol
  /\ stock_sid r = sid match expected_data with
                       | Some e => e
                       | None => default_expected symbol
                       end
  /\ open_equ_prices r = equ_open match expected_data with
                                  | Some e => e
                                  | None => default_expected symbol
                                  end.
Proof.
  unfold get_realtime_data. intros H.
  destruct (http _) as [text|]; [|discriminate H].
  destruct (is_empty _ || contains _ _); [discriminate H|].
  destruct (search_quoted _) as [payload|]; [|discriminate H].
  destruct (_ <? 30)%nat; [discriminate H|].
  repeat match type of H with
         | context [bind ?m _] =>
             destruct m; cbn [bind except_Exception] in H;
             [|discriminate H]
         end.
  cbn [except_Exception] in H. injection H as <-.
  repeat split.
Qed.


Lemma dict_lookup_set (d : list (string * expected)) (key : string)
    (value : expected) (other : string) :
  Real_Time_ShenZhen2.dict_lookup (Real_Time_ShenZhen2.dict_set d key value)
    other
  = if (key =? other)%string then Some value
    else Real_Time_ShenZhen2.dict_lookup d other.
Proof.
  induction d as [|[k v] d IH];
    cbn [Real_Time_ShenZhen2.dict_set Real_Time_ShenZhen2.dict_lookup].
  - reflexivity.
  - destruct (String.eqb_spec k key) as [->|N];
      cbn [Real_Time_ShenZhen2.dict_lookup].
    + destruct (key =? other)%string; reflexivity.
    + rewrite IH. destruct (String.eqb_spec k other) as [->|N2];
        [|reflexivity].
      destruct (String.eqb_spec key other) as [->|N3];
        [congruence|reflexivity].
Qed.

Lemma expected_prices_get_lookup (d : list (string * expected))
    (symbol : string) (default : expected) :
  Real_Time_ShenZhen2.expected_prices_get d symbol default
  = match Real_Time_ShenZhen2.dict_lookup d symbol with
    | Some e => e
    | None => default
    end.
Proof.
  induction d as [|[k v] d IH]; simpl; [reflexivity|].
  destruct (k =? symbol)%string; [reflexivity|exact IH].
Qed.

(** X20.  After [add_expected_price] for a symbol, the expected data of
    that symbol are the sid and price just set and those of every other
    symbol are unchanged; a lookup of the symbol without expected data is
    then reconciled against the price set. *)
Theorem add_expected_price_round_trip
    (expected_prices : list (string * expected)) (symbol sid : string)
    (equ_open : float) :
  Real_Time_ShenZhen2.default_expected
    (Real_Time_ShenZhen2.add_expected_price expected_prices symbol sid
       equ_open) symbol
  = {| SZSEDataFetcher.sid := sid;
       SZSEDataFetcher.equ_open := Some equ_open |}
  /\ (forall other,
        other <> symbol ->
        Real_Time_ShenZhen2.default_expected
          (Real_Time_ShenZhen2.add_expected_price expected_prices symbol sid
             equ_open) other
        = Real_Time_ShenZhen2.default_expected expected_prices other)
  /\ (forall http now r,
        Real_Time_ShenZhen2.get_realtime_data
          (Real_Time_ShenZhen2.add_expected_price expected_prices symbol sid
             equ_open) http now symbol None = Some r ->
        stock_sid r = sid
        /\ open_equ_prices r = Some equ_open
        /\ match_status r = realtime_verdict (open r) (Some equ_open)).
Proof.
  assert (Hsame :
    Real_Time_ShenZhen2.default_expected
      (Real_Time_ShenZhen2.add_expected_price expected_prices symbol sid
         equ_open) symbol
    = {| SZSEDataFetcher.sid := sid;
         SZSEDataFetcher.equ_open := Some equ_open |}).
  { unfold Real_Time_ShenZhen2.default_expected,
      Real_Time_ShenZhen2.add_expected_price.
    rewrite expected_prices_get_lookup, dict_lookup_set.
    now rewrite String.eqb_refl. }
  split; [exact Hsame|]. split.
  - intros other Hne.
    unfold Real_Time_ShenZhen2.default_expected,
      Real_Time_ShenZhen2.add_expected_price.
    rewrite !expected_prices_get_lookup, dict_lookup_set.
    destruct (String.eqb_spec symbol other) as [->|N]; [congruence|].
    reflexivity.
  - intros http now r H.
    pose proof (get_realtime_data_verdict _ _ _ _ _ _ H) as Hv.
    apply get_realtime_data_answer in H. destruct H as (_ & Hi & Ho).
    rewrite Hsame in Hi, Ho. cbn in Hi, Ho.
    split; [exact Hi|]. split; [exact Ho|].
    rewrite Hv, Ho. reflexivity.
Qed.

Lemma dict_lookup_nil_table (symbol : string)
    (expected_prices : option (list (string * expected))) :
  match expected_prices with
  | Some (item :: items) =>
      Real_Time_ShenZhen2.dict_lookup (item :: items) symbol
  | _ => None
  end
  = match expected_prices with
    | Some table => Real_Time_ShenZhen2.dict_lookup table symbol
    | None => None
    end.
Proof. destruct expected_prices as [[|item items]|]; reflexivity. Qed.

(** X21.  The records that the batch of the second real-time client returns
    follow the order of the symbols, and each is reconciled against the
    entry of the table passed to the batch when that table has the symbol,
    else against the entry of the fetcher's own table, else against
    nothing. *)
Theorem sz2_get_multiple_symbols_expected
    (self_prices : list (string * expected))
    (env : nat -> (string -> option string) * string)
    (symbols : list string)
    (expected_prices : option (list (string * expected))) :
  let results :=
    Real_Time_ShenZhen2.get_multiple_symbols self_prices env symbols
      expected_prices in
  subseq (map SZSEDataFetcher.symbol results) symbols
  /\ Forall
       (fun r =>
          let e := effective_expected self_prices expected_prices
                     (SZSEDataFetcher.symbol r) in
          stock_sid r = sid e
          /\ open_equ_prices r = equ_open e
          /\ match_status r = realtime_verdict (open r) (equ_open e))
       results.
Proof.
  unfold Real_Time_ShenZhen2.get_multiple_symbols. generalize 0%nat.
  induction symbols as [|symbol rest IH]; intros i;
    [split; constructor|].
  cbn [Real_Time_ShenZhen2.get_multiple_symbols_from].
  destruct (IH (S i)) as [IHs IHf].
  rewrite dict_lookup_nil_table.
  destruct (Real_Time_ShenZhen2.get_realtime_data _ _ _ _ _) as [r|] eqn:E.
  - pose proof (get_realtime_data_verdict _ _ _ _ _ _ E) as Hv.
    apply get_realtime_data_answer in E. destruct E as (Hs & Hi & Ho).
    cbn. split.
    + rewrite Hs. now apply subseq_take.
    + constructor; [|exact IHf].
      rewrite Hs. unfold effective_expected.
      unfold Real_Time_ShenZhen2.default_expected in Hi, Ho.
      rewrite expected_prices_get_lookup in Hi, Ho.
      destruct (match expected_prices with
                | Some table => Real_Time_ShenZhen2.dict_lookup table symbol
                | None => None
                end) as [e|];
        (split; [exact Hi|]; split; [exact Ho|]; rewrite Hv, Ho; reflexivity).
  - cbn. split; [now apply subseq_skip|exact IHf].
Qed.

(** X22.  [quick_lookup] of the first real-time client uses the caller's sid
    and expected price only when the sid is not empty and the price is not
    zero; otherwise, also for an expected price of exactly 0, the record
    has the placeholder sid and the verdict NO EXPECTED PRICE. *)
Theorem quick_lookup_zero_price (http : string -> option string)
    (now symbol : string) (sid : option string) (expected_open : option float)
    (r : stock_data) :
  Shenzhen_Real_Time_Final.quick_lookup http now symbol sid expected_open
    = Some r ->
  if Shenzhen_Real_Time_Final.str_truthy sid
     && Shenzhen_Real_Time_Final.float_truthy expected_open
  then Some (stock_sid r) = sid /\ open_equ_prices r = expected_open
       /\ match_status r = realtime_verdict (open r) expected_open
  else stock_sid r = "SID_" ++ symbol /\ open_equ_prices r = None
       /\ match_status r = "NO EXPECTED PRICE".
Proof.
  unfold Shenzhen_Real_Time_Final.quick_lookup. intros H.
  pose proof (get_realtime_data_verdict _ _ _ _ _ _ H) as Hv.
  apply get_realtime_data_answer in H. destruct H as (_ & Hi & Ho).
  destruct (Shenzhen_Real_Time_Final.str_truthy sid
            && Shenzhen_Real_Time_Final.float_truthy expected_open) eqn:E.
  - cbn in Hi, Ho. apply andb_true_iff in E. destruct E as [Es _].
    destruct sid as [s|]; [|discriminate Es].
    split; [now rewrite Hi|]. split; [exact Ho|].
    rewrite Hv, Ho. reflexivity.
  - cbn in Hi, Ho. split; [exact Hi|]. split; [exact Ho|].
    rewrite Hv, Ho. reflexivity.
Qed.

Lemma quick_lookup_zero_price_witness :
  exists r,
    Shenzhen_Real_Time_Final.quick_lookup
      (fun _ => Some (feed_text ping_an_fields)) "2026-11-03 10:00:00"
      "000001" (Some "SID002") (Some (price "0.0")) = Some r
    /\ stock_sid r = "SID_000001"
    /\ open_equ_prices r = None
    /\ match_status r = "NO EXPECTED PRICE".
Proof.
  eexists. split; [reflexivity|].
  exact (quick_lookup_zero_price
           (fun _ => Some (feed_text ping_an_fields)) "2026-11-03 10:00:00"
           "000001" (Some "SID002") (Some (price "0.0")) _ eq_refl).
Defined.
(** X23.  [quick_lookup] of the second real-time client, called without a
    usable sid and price, reconciles against the table that a new fetcher
    starts with: the built-in sid and price of the symbol if it has one,
    else nothing. *)
Theorem sz2_quick_lookup_builtin (http : string -> option string)
    (now symbol : string) (sid : option string) (expected_open : option float)
    (r : stock_data) :
  Real_Time_ShenZhen2.quick_lookup http now symbol sid expected_open
    = Some r ->
  Shenzhen_Real_Time_Final.str_truthy sid
  && Shenzhen_Real_Time_Final.float_truthy expected_open = false ->
  let e := effective_expected Real_Time_ShenZhen2.initial_expected_prices
             None symbol in
  stock_sid r = SZSEDataFetcher.sid e
  /\ open_equ_prices r = equ_open e
  /\ match_status r = realtime_verdict (open r) (equ_open e).
Proof.
  intros H Hf. cbv zeta. unfold Real_Time_ShenZhen2.quick_lookup in H.
  rewrite Hf in H.
  pose proof (get_realtime_data_verdict _ _ _ _ _ _ H) as Hv.
  apply get_realtime_data_answer in H. destruct H as (_ & Hi & Ho).
  unfold Real_Time_ShenZhen2.default_expected in Hi, Ho.
  rewrite expected_prices_get_lookup in Hi, Ho.
  unfold effective_expected.
  destruct (Real_Time_ShenZhen2.dict_lookup
              Real_Time_ShenZhen2.initial_expected_prices symbol) as [x|];
    (split; [exact Hi|]; split; [exact Ho|]; rewrite Hv, Ho; reflexivity).
Qed.

Lemma sz2_quick_lookup_builtin_witness :
  exists r,
    Real_Time_ShenZhen2.quick_lookup
      (fun _ => Some (feed_text ping_an_fields)) "2026-11-03 10:00:00"
      "000001" None None = Some r
    /\ stock_sid r = "SID002"
    /\ open_equ_prices r = Some (price "8.50")
    /\ match_status r = "MATCHED!".
Proof.
  eexists. split; [reflexivity|].
  exact (sz2_quick_lookup_builtin
           (fun _ => Some (feed_text ping_an_fields)) "2026-11-03 10:00:00"
           "000001" None None _ eq_refl eq_refl).
Defined.

Lemma add_expected_price_round_trip_witness :
  Real_Time_ShenZhen2.default_expected
    (Real_Time_ShenZhen2.add_expected_price
       Real_Time_ShenZhen2.initial_expected_prices "000001" "SID900"
       (price "8.52")) "600519"
  = Real_Time_ShenZhen2.default_expected
      Real_Time_ShenZhen2.initial_expected_prices "600519".
Proof.
  exact (proj1 (proj2 (add_expected_price_round_trip
                         Real_Time_ShenZhen2.initial_expected_prices
                         "000001" "SID900" (price "8.52")))
               "600519" ltac:(discriminate)).
Defined.

End RealtimeBatch.
